(** * webknossos-cuber: dataset layer registry and TIFF slice export

    A shallow embedding of

    - [wkcuber/api/Dataset.py]: the dtype conversion helpers and the layer
      operations of [AbstractDataset] ([add_layer], [get_or_add_layer],
      [delete_layer], [add_symlink_layer]);
    - [wkcuber/export_wkw_as_tiff.py]: the file-name helper, the per-slice
      job, the job list of [export_tiff_stack] and the command-line entry.

    Python exceptions are values of [exn]; a call that can raise returns a
    [result].  Methods that mutate the dataset object or the disk are
    functions in the state-and-exception monad [M] over [World]: as in
    Python, what a call has written before it raises stays written. *)

From Stdlib Require Import ZArith Ascii DecimalString DecimalPos.
From Stdlib Require Import DecimalZ.
From stdpp Require Import gmap strings list fin_maps.

Open Scope string_scope.
Open Scope Z_scope.

(** ** Exceptions and results *)

(** The exception classes the two modules raise or let through. *)
Inductive exn :=
| AttributeError
| TypeError
| IndexError
| AssertionError
| KeyError
| ZeroDivisionError
| ValueError
| OSError.

Inductive result (A : Type) :=
| Ok (a : A)
| Raise (e : exn).
Arguments Ok {A} a.
Arguments Raise {A} e.

(** The error kinds of the specification, as the classes that carry them. *)
Definition AmbiguousDtypeError : exn := AttributeError.
Definition TypeConversionError : exn := TypeError.
Definition DuplicateLayerError : exn := IndexError.
Definition UnknownLayerError : exn := IndexError.
Definition ConfigMismatchError : exn := AssertionError.
Definition InvalidAxisError : exn := AssertionError.

#[global] Instance result_ret : MRet result := @Ok.

#[global] Instance result_bind : MBind result := fun A B k r =>
  match r with
  | Ok a => k a
  | Raise e => Raise e
  end.

#[global] Instance result_fmap : FMap result := fun A B f r =>
  match r with
  | Ok a => Ok (f a)
  | Raise e => Raise e
  end.

(** [[f(x) for x in l]]: left to right, the first exception ends it. *)
Fixpoint comprehension {A B} (f : A -> result B) (l : list A) : result (list B) :=
  match l with
  | [] => Ok []
  | x :: l' => y ← f x; ys ← comprehension f l'; Ok (y :: ys)
  end.

(** ** Python built-ins used by the two modules *)

Definition is_digit (c : ascii) : bool :=
  ((48 <=? nat_of_ascii c) && (nat_of_ascii c <=? 57))%nat.

(** [str(z)] for an [int]. *)
Definition py_str (z : Z) : string := NilZero.string_of_int (Z.to_int z).

(** [int(s)] for a [str], on ASCII text: an optional sign and decimal
    digits.  (Python also accepts surrounding blanks and single underscores
    between digits; the callers here pass digit runs cut out by a regular
    expression, or text already stripped.) *)
Definition py_int (s : string) : result Z :=
  let unsigned (t : string) :=
    match NilZero.uint_of_string t with
    | Some d => Ok (Z.of_uint d)
    | None => Raise ValueError
    end in
  match s with
  | String "-" t => z ← unsigned t; Ok (- z)
  | String "+" t => unsigned t
  | _ => unsigned s
  end.

(** [re.split("(\d+)", s)]: the text between digit runs and, because of the
    capturing group, the digit runs themselves, alternating; the list starts
    and ends with a (possibly empty) piece of text that is not a digit run. *)
Fixpoint re_split_from (in_digits : bool) (cur s : string) : list string :=
  match s with
  | "" => if in_digits then [cur; ""] else [cur]
  | String c s' =>
      if is_digit c then
        if in_digits then re_split_from true (cur +:+ String c "") s'
        else cur :: re_split_from true (String c "") s'
      else
        if in_digits then cur :: re_split_from false (String c "") s'
        else re_split_from false (cur +:+ String c "") s'
  end.

Definition re_split_digits (s : string) : list string := re_split_from false "" s.

(** [operator.mul] and [int(operator.truediv(a, b))] on an [int] and the
    [num_channels] argument, which may be [None].  True division goes through
    a float; for the bit widths of element types (far below 2^52) the float is
    exact enough that [int] of it is the quotient truncated towards zero. *)
Definition mul (a : Z) (b : option Z) : result Z :=
  match b with
  | None => Raise TypeError
  | Some n => Ok (a * n)
  end.

Definition truediv (a : Z) (b : option Z) : result Z :=
  match b with
  | None => Raise TypeError
  | Some n => if n =? 0 then Raise ZeroDivisionError else Ok (Z.quot a n)
  end.

(** POSIX [os.path.join] of two components, and [os.path.basename] and
    [Path.parent] of a normalised path. *)
Definition ends_with_slash (s : string) : bool :=
  match String.rev s with
  | String "/" _ => true
  | _ => false
  end.

Definition join (a b : string) : string :=
  match b with
  | String "/" _ => b
  | _ => if ((a =? "")%string || ends_with_slash a)%bool then a +:+ b else a +:+ "/" +:+ b
  end.

Fixpoint split_last_slash (dir : option string) (cur s : string) : option string * string :=
  match s with
  | "" => (dir, cur)
  | String "/" s' =>
      split_last_slash
        (Some match dir with None => cur | Some d => d +:+ "/" +:+ cur end) "" s'
  | String c s' => split_last_slash dir (cur +:+ String c "") s'
  end.

Definition basename (p : string) : string := snd (split_last_slash None "" p).

Definition parent (p : string) : string :=
  match fst (split_last_slash None "" p) with
  | None => "."
  | Some "" => "/"
  | Some d => d
  end.

(** ** numpy element types *)

(** The element types numpy names by kind and bit width. *)
Inductive np_dtype :=
| bool_
| int8 | int16 | int32 | int64
| uint8 | uint16 | uint32 | uint64
| float16 | float32 | float64
| complex64 | complex128.

#[global] Instance np_dtype_eq_dec : EqDecision np_dtype.
Proof. solve_decision. Defined.

Definition all_dtypes : list np_dtype :=
  [bool_; int8; int16; int32; int64; uint8; uint16; uint32; uint64;
   float16; float32; float64; complex64; complex128].

(** [str(dt)] for a [numpy.dtype]. *)
Definition dtype_name (dt : np_dtype) : string :=
  match dt with
  | bool_ => "bool"
  | int8 => "int8" | int16 => "int16" | int32 => "int32" | int64 => "int64"
  | uint8 => "uint8" | uint16 => "uint16" | uint32 => "uint32" | uint64 => "uint64"
  | float16 => "float16" | float32 => "float32" | float64 => "float64"
  | complex64 => "complex64" | complex128 => "complex128"
  end.

(** What callers pass where a dtype is expected: a string or a
    [numpy.dtype] object. *)
Inductive dtype_like :=
| Name (s : string)
| Dtype (dt : np_dtype).

Definition str_dtype (d : dtype_like) : string :=
  match d with
  | Name s => s
  | Dtype dt => dtype_name dt
  end.

(** [numpy.dtype(x)].  [None] gives numpy's default, [float64]; a dtype
    object is returned as it is; a string is looked up among the names above
    and anything else is "data type not understood", a [TypeError]: so is
    "uint24", which numpy does not have.  (numpy also reads type codes such
    as "u1" and unsized names such as "uint"; they are not in this table.) *)
Definition np_dtype_of_name (s : string) : result np_dtype :=
  match List.find (fun dt => (dtype_name dt =? s)%string) all_dtypes with
  | Some dt => Ok dt
  | None => Raise TypeError
  end.

Definition np_dtype_of (x : option dtype_like) : result np_dtype :=
  match x with
  | None => Ok float64
  | Some (Dtype dt) => Ok dt
  | Some (Name s) => np_dtype_of_name s
  end.

(** [dt == s] for a dtype object and a string: numpy turns the string into a
    dtype and compares. *)
Definition dtype_eq_name (dt : np_dtype) (s : string) : bool :=
  match np_dtype_of_name s with
  | Ok dt' => bool_decide (dt = dt')
  | Raise _ => false
  end.

(** ** Dataset.py: dtype conversion *)

Definition DEFAULT_BIT_DEPTH : Z := 8.

Definition is_int (s : string) : bool :=
  match py_int s with
  | Ok _ => true
  | Raise _ => false
  end.

(** The body of [convert_dtypes] below its [None] guard, on [str(dtype)]. *)
Definition convert_dtype_parts (dtype : string) (num_channels : option Z)
    (dtype_per_layer_to_dtype_per_channel : bool) : result string :=
  let op := if dtype_per_layer_to_dtype_per_channel then truediv else mul in
  let dtype_parts := re_split_digits dtype in
  converted_dtype_parts ←
    comprehension
      (fun part =>
         if is_int part
         then (v ← py_int part; q ← op v num_channels; Ok (py_str q))
         else Ok part)
      dtype_parts;
  Ok (String.concat "" converted_dtype_parts).

Definition convert_dtypes (dtype : option dtype_like) (num_channels : option Z)
    (dtype_per_layer_to_dtype_per_channel : bool) : result (option string) :=
  match dtype with
  | None => Ok None
  | Some d =>
      Some <$> convert_dtype_parts (str_dtype d) num_channels dtype_per_layer_to_dtype_per_channel
  end.

(** [except TypeError] re-raises a [TypeError]; any other exception passes
    through unchanged. *)
Definition dtype_per_layer_to_dtype_per_channel (dtype_per_layer : option dtype_like)
    (num_channels : option Z) : result np_dtype :=
  match convert_dtypes dtype_per_layer num_channels true with
  | Ok converted => np_dtype_of (Name <$> converted)
  | Raise e => Raise e
  end.

(** [numpy.dtype] never returns [None], so [convert_dtypes] is past its guard
    here and the result is a string. *)
Definition dtype_per_channel_to_dtype_per_layer (dtype_per_channel : option dtype_like)
    (num_channels : option Z) : result string :=
  dt ← np_dtype_of dtype_per_channel;
  convert_dtype_parts (str_dtype (Dtype dt)) num_channels false.

(** ** The dataset object, its manifest and the disk *)

Inductive dataset_class := WKDataset | TiffDataset | TiledTiffDataset.

Inductive layer_class := WKLayer | TiffLayer | TiledTiffLayer.

(** Modelled from the spec: the [Layer] classes of [wkcuber.api.Layer], which
    are not among the sources.  A layer has its name, its per-channel element
    type, its number of channels (what [_create_layer] hands to the
    constructor) and the resolutions opened so far. *)
Record Layer := {
  l_class : layer_class;
  l_name : string;
  l_dtype_per_channel : np_dtype;
  l_num_channels : Z;
  l_mags : gset string
}.

(** Modelled from the spec: a layer descriptor of the manifest
    ([wkcuber.api.Properties], not among the sources): category, element
    class (the per-layer dtype), number of channels and the list of
    resolutions, each by the name [mag.to_layer_name()] gives it. *)
Record LayerProperties := {
  lp_name : string;
  lp_category : string;
  lp_element_class : string;
  lp_data_format : string;
  lp_num_channels : Z;
  lp_wkw_magnifications : list string
}.

(** Modelled from the spec: the in-memory manifest; [data_layers] maps a
    layer name to its descriptor.  (The scale, three floats, plays no part in
    the layer operations and is left out.) *)
Record Properties := {
  p_path : string;
  p_name : string;
  data_layers : gmap string LayerProperties
}.

Record Dataset := {
  ds_class : dataset_class;
  layers : gmap string Layer;
  path : string;
  properties : Properties;
  data_format : string
}.

(** What the operations see of the file system: the layer table of the
    manifest as last written, the entries below the dataset directory by
    path, and the layer tables of the other datasets that can be opened, by
    directory. *)
Inductive fs_entry :=
| Directory
| Symlink (target : string).

Record Disk := {
  manifest : gmap string LayerProperties;
  entries : gmap string fs_entry;
  foreign : gmap string (gmap string LayerProperties)
}.

Record World := {
  dataset : Dataset;
  disk : Disk
}.

(** ** The state-and-exception monad of the methods *)

Definition M (A : Type) : Type := World -> result A * World.

#[global] Instance M_ret : MRet M := fun A a w => (Ok a, w).

#[global] Instance M_bind : MBind M := fun A B k m w =>
  match m w with
  | (Ok a, w') => k a w'
  | (Raise e, w') => (Raise e, w')
  end.

Definition raise {A} (e : exn) : M A := fun w => (Raise e, w).

Definition lift {A} (r : result A) : M A := fun w => (r, w).

Definition self : M Dataset := fun w => (Ok (dataset w), w).

Definition assert (b : bool) : M unit :=
  if b then mret () else raise AssertionError.

(** [d[k]] on a dict: [KeyError] when the key is missing. *)
Definition getitem {A} (d : gmap string A) (k : string) : M A :=
  match d !! k with
  | Some a => mret a
  | None => raise KeyError
  end.

Definition set_layers (f : gmap string Layer -> gmap string Layer) : M unit := fun w =>
  let ds := dataset w in
  (Ok (),
   {| dataset := {| ds_class := ds_class ds; layers := f (layers ds); path := path ds;
                    properties := properties ds; data_format := data_format ds |};
      disk := disk w |}).

Definition set_data_layers
    (f : gmap string LayerProperties -> gmap string LayerProperties) : M unit := fun w =>
  let ds := dataset w in
  let p := properties ds in
  (Ok (),
   {| dataset := {| ds_class := ds_class ds; layers := layers ds; path := path ds;
                    properties := {| p_path := p_path p; p_name := p_name p;
                                     data_layers := f (data_layers p) |};
                    data_format := data_format ds |};
      disk := disk w |}).

Definition set_manifest (m : gmap string LayerProperties) : M unit := fun w =>
  (Ok (),
   {| dataset := dataset w;
      disk := {| manifest := m; entries := entries (disk w); foreign := foreign (disk w) |} |}).

Definition set_entries (f : gmap string fs_entry -> gmap string fs_entry) : M unit := fun w =>
  (Ok (),
   {| dataset := dataset w;
      disk := {| manifest := manifest (disk w); entries := f (entries (disk w));
                 foreign := foreign (disk w) |} |}).

(** [for x in l: body(x)]. *)
Fixpoint for_each {A} (l : list A) (body : A -> M unit) : M unit :=
  match l with
  | [] => mret ()
  | x :: l' => body x;; for_each l' body
  end.

(** ** The file system calls *)

(** [shutil.rmtree(p)]: removes a directory; refuses a symbolic link and a
    path that does not exist. *)
Definition rmtree (p : string) : M unit := fun w =>
  match entries (disk w) !! p with
  | Some Directory => set_entries (delete p) w
  | Some (Symlink _) => (Raise OSError, w)
  | None => (Raise OSError, w)
  end.

(** [os.symlink(src, dst)]: fails when [dst] exists. *)
Definition symlink (src dst : string) : M unit := fun w =>
  match entries (disk w) !! dst with
  | Some _ => (Raise OSError, w)
  | None => set_entries <[dst := Symlink src]> w
  end.

(** ** Properties and Layer, as far as the dataset operations use them *)

(** Modelled from the spec: [Properties._export_as_json], not among the
    sources: the full manifest is rewritten on each call. *)
Definition Properties_export_as_json : M unit :=
  ds ← self; set_manifest (data_layers (properties ds)).

(** Modelled from the spec: [Properties._add_layer], not among the sources:
    it fails if the name is already present, and a structural change is
    followed by the export of the manifest before the call returns. *)
Definition Properties_add_layer (layer_name category element_class data_format : string)
    (num_channels : Z) : M unit :=
  ds ← self;
  if decide (layer_name ∈ dom (data_layers (properties ds)))
  then raise DuplicateLayerError
  else
    set_data_layers
      <[layer_name := {| lp_name := layer_name; lp_category := category;
                         lp_element_class := element_class; lp_data_format := data_format;
                         lp_num_channels := num_channels; lp_wkw_magnifications := [] |}]>;;
    Properties_export_as_json.

(** Modelled from the spec: [Properties._delete_layer], not among the
    sources: removes the entry and exports the manifest. *)
Definition Properties_delete_layer (layer_name : string) : M unit :=
  set_data_layers (delete layer_name);;
  Properties_export_as_json.

(** [_create_layer] of the three dataset classes builds the layer class of
    its format.  Modelled from the spec: the constructors of the [Layer]
    classes, not among the sources: a layer starts with no resolution, and its
    subtree [datasetPath/layerName/] is on disk once the layer exists (an
    entry already there, such as a symbolic link, is kept). *)
Definition _create_layer (layer_name : string) (dtype_per_channel : np_dtype)
    (num_channels : Z) : M Layer :=
  ds ← self;
  set_entries (fun es =>
    match es !! join (path ds) layer_name with
    | Some _ => es
    | None => <[join (path ds) layer_name := Directory]> es
    end);;
  mret {| l_class := match ds_class ds with
                     | WKDataset => WKLayer
                     | TiffDataset => TiffLayer
                     | TiledTiffDataset => TiledTiffLayer
                     end;
          l_name := layer_name;
          l_dtype_per_channel := dtype_per_channel;
          l_num_channels := num_channels;
          l_mags := ∅ |}.

(** Modelled from the spec: [Layer.setup_mag], not among the sources:
    registers an existing resolution with the layer. *)
Definition setup_mag (layer_name mag : string) : M unit :=
  set_layers (fun ls =>
    match ls !! layer_name with
    | Some l => <[layer_name := {| l_class := l_class l; l_name := l_name l;
                                   l_dtype_per_channel := l_dtype_per_channel l;
                                   l_num_channels := l_num_channels l;
                                   l_mags := {[mag]} ∪ l_mags l |}]> ls
    | None => ls
    end).

(** Modelled from the spec: opening another dataset ([open(path)] loads its
    manifest), through [AbstractDataset.__init__] and
    [Properties._from_json]; the latter is not among the sources.  The world
    lists the layer tables of the datasets that open; any other directory is
    a file system error. *)
Definition open_properties (dataset_path : string) : M (gmap string LayerProperties) := fun w =>
  match foreign (disk w) !! dataset_path with
  | Some table => (Ok table, w)
  | None => (Raise OSError, w)
  end.

(** ** Dataset.py: the layer operations of AbstractDataset *)

Definition get_layer (layer_name : string) : M Layer :=
  ds ← self;
  if decide (layer_name ∉ dom (layers ds))
  then raise IndexError
  else getitem (layers ds) layer_name.

(** The [if]/[elif] chain at the head of [add_layer], which settles the
    per-layer and the per-channel dtype from the two optional arguments;
    [num_channels] is already defaulted. *)
Definition add_layer_dtypes (dtype_per_layer dtype_per_channel : option dtype_like)
    (num_channels : Z) : result (string * np_dtype) :=
  match dtype_per_layer, dtype_per_channel with
  | Some _, Some _ => Raise AttributeError
  | _, Some c =>
      dtype_per_channel ← np_dtype_of (Some c);
      dtype_per_layer ←
        dtype_per_channel_to_dtype_per_layer (Some (Dtype dtype_per_channel))
          (Some num_channels);
      Ok (dtype_per_layer, dtype_per_channel)
  | Some l, None =>
      let dtype_per_layer :=
        match np_dtype_of (Some l) with
        | Ok dt => dtype_name dt
        | Raise _ => str_dtype l
        end in
      dtype_per_channel ←
        dtype_per_layer_to_dtype_per_channel (Some (Name dtype_per_layer))
          (Some num_channels);
      Ok (dtype_per_layer, dtype_per_channel)
  | None, None =>
      dtype_per_channel ← np_dtype_of (Some (Name ("uint" +:+ py_str DEFAULT_BIT_DEPTH)));
      Ok ("uint" +:+ py_str (DEFAULT_BIT_DEPTH * num_channels), dtype_per_channel)
  end.

Definition add_layer (layer_name category : string)
    (dtype_per_layer dtype_per_channel : option dtype_like)
    (num_channels : option Z) : M Layer :=
  let num_channels := match num_channels with None => 1 | Some n => n end in
  '(dtype_per_layer, dtype_per_channel) ←
    lift (add_layer_dtypes dtype_per_layer dtype_per_channel num_channels);
  ds ← self;
  if decide (layer_name ∈ dom (layers ds))
  then raise IndexError
  else
    Properties_add_layer layer_name category dtype_per_layer (data_format ds) num_channels;;
    layer ← _create_layer layer_name dtype_per_channel num_channels;
    set_layers <[layer_name := layer]>;;
    ds ← self;
    getitem (layers ds) layer_name.

Definition get_or_add_layer (layer_name category : string)
    (dtype_per_layer dtype_per_channel : option dtype_like)
    (num_channels : option Z) : M Layer :=
  ds ← self;
  if decide (layer_name ∈ dom (layers ds))
  then
    layer_properties ← getitem (data_layers (properties ds)) layer_name;
    assert (lp_category layer_properties =? category)%string;;
    dtype_per_channel ← lift (dtype_per_layer_to_dtype_per_channel dtype_per_layer num_channels);
    layer ← getitem (layers ds) layer_name;
    assert (match dtype_per_layer with
            | None => true
            | Some _ => bool_decide (l_dtype_per_channel layer = dtype_per_channel)
            end);;
    assert (match num_channels with
            | None => true
            | Some n => l_num_channels layer =? n
            end);;
    mret layer
  else
    add_layer layer_name category dtype_per_layer dtype_per_channel num_channels.

Definition delete_layer (layer_name : string) : M unit :=
  ds ← self;
  if decide (layer_name ∉ dom (layers ds))
  then raise IndexError
  else
    set_layers (delete layer_name);;
    Properties_delete_layer layer_name;;
    rmtree (join (path ds) layer_name).

(** [foreign_layer_path] is taken absolute and normalised, so that
    [os.path.abspath] and [os.path.normpath] leave it as it is. *)
Definition add_symlink_layer (foreign_layer_path : string) : M Layer :=
  let layer_name := basename foreign_layer_path in
  ds ← self;
  if decide (layer_name ∈ dom (layers ds))
  then raise IndexError
  else
    symlink foreign_layer_path (join (path ds) layer_name);;
    foreign_layers ← open_properties (parent foreign_layer_path);
    layer_properties ← getitem foreign_layers layer_name;
    set_data_layers <[layer_name := layer_properties]>;;
    Properties_export_as_json;;
    dtype_per_channel ←
      lift (dtype_per_layer_to_dtype_per_channel
              (Some (Name (lp_element_class layer_properties)))
              (Some (lp_num_channels layer_properties)));
    layer ← _create_layer layer_name dtype_per_channel (lp_num_channels layer_properties);
    set_layers <[layer_name := layer]>;;
    for_each (lp_wkw_magnifications layer_properties) (setup_mag layer_name);;
    ds ← self;
    getitem (layers ds) layer_name.

(** ** export_wkw_as_tiff.py: bounding boxes and slice jobs *)

(** The dict [{"topleft": ..., "size": ...}] with its two triples. *)
Record BoundingBox := {
  bbox_topleft : Z * Z * Z;
  bbox_size : Z * Z * Z
}.

#[global] Instance BoundingBox_eq_dec : EqDecision BoundingBox.
Proof. solve_decision. Defined.

Definition wkw_name_and_bbox_to_tiff_name (name : string) (bbox : BoundingBox) : string :=
  let '(t0, t1, t2) := bbox_topleft bbox in
  name +:+ "_topleft_" +:+ py_str t0 +:+ "_" +:+ py_str t1 +:+ "_" +:+ py_str t2
  +:+ "_size_" +:+ py_str t0 +:+ "_" +:+ py_str t1 +:+ "_" +:+ py_str t2 +:+ ".tiff".

(** What one job does to the outside: the block it reads from the wkw
    dataset and the file it saves the image to. *)
Record SliceIO := {
  read_from : string;
  read_topleft : Z * Z * Z;
  read_size : Z * Z * Z;
  saved_to : string
}.

Definition ExportArgs : Type := Z * BoundingBox * string * string * string * string.

(** [tiff_bbox = bbox] is a second name for the caller's dict, and the
    assignments to its two keys change that dict: the function returns, with
    the job's reads and writes, the dict as it leaves it. *)
Definition export_tiff_slice (export_args : ExportArgs) : BoundingBox * SliceIO :=
  let '(slice_number, bbox, dest_path, name, axis, dataset_path) := export_args in
  let tiff_bbox := bbox in
  let tiff_bbox :=
    if (axis =? "x")%string then
      let '(t0, t1, t2) := bbox_topleft tiff_bbox in
      let tiff_bbox := {| bbox_topleft := (t0 + slice_number, t1, t2);
                          bbox_size := bbox_size tiff_bbox |} in
      let '(s0, s1, s2) := bbox_size tiff_bbox in
      {| bbox_topleft := bbox_topleft tiff_bbox; bbox_size := (1, s1, s2) |}
    else tiff_bbox in
  let tiff_bbox :=
    if (axis =? "y")%string then
      let '(t0, t1, t2) := bbox_topleft tiff_bbox in
      let tiff_bbox := {| bbox_topleft := (t0, t1 + slice_number, t2);
                          bbox_size := bbox_size tiff_bbox |} in
      let '(s0, s1, s2) := bbox_size tiff_bbox in
      {| bbox_topleft := bbox_topleft tiff_bbox; bbox_size := (s0, 1, s2) |}
    else
      let '(t0, t1, t2) := bbox_topleft tiff_bbox in
      let tiff_bbox := {| bbox_topleft := (t0, t1, t2 + slice_number);
                          bbox_size := bbox_size tiff_bbox |} in
      let '(s0, s1, s2) := bbox_size tiff_bbox in
      {| bbox_topleft := bbox_topleft tiff_bbox; bbox_size := (s0, s1, 1) |} in
  let tiff_file_name := wkw_name_and_bbox_to_tiff_name name tiff_bbox in
  let tiff_file_path := join dest_path tiff_file_name in
  (tiff_bbox,
   {| read_from := dataset_path;
      read_topleft := bbox_topleft tiff_bbox;
      read_size := bbox_size tiff_bbox;
      saved_to := tiff_file_path |}).

(** The slice box a job works on. *)
Definition slice_bbox (export_args : ExportArgs) : BoundingBox :=
  fst (export_tiff_slice export_args).

(** [range(n)] and [[x] * n]; both are empty for [n <= 0]. *)
Definition range (n : Z) : list Z := Z.of_nat <$> seq 0 (Z.to_nat n).

Definition repeat_list {A} (x : A) (n : Z) : list A := replicate (Z.to_nat n) x.

(** The job list [export_tiff_stack] zips together: every tuple holds the
    caller's [bbox] dict, one and the same object. *)
Definition export_args_of (bbox : BoundingBox) (destination_path name axis dataset_path : string)
    : list ExportArgs :=
  let axis_index :=
    if (axis =? "x")%string then 0%nat
    else if (axis =? "y")%string then 1%nat
    else 2%nat in
  let '(s0, s1, s2) := bbox_size bbox in
  let num_slices := match axis_index with 0%nat => s0 | 1%nat => s1 | _ => s2 end in
  let slices := range num_slices in
  zip (zip (zip (zip (zip slices
    (repeat_list bbox num_slices))
    (repeat_list destination_path num_slices))
    (repeat_list name num_slices))
    (repeat_list axis num_slices))
    (repeat_list dataset_path num_slices).

(** The executor, [get_executor_for_args(args)] of [wkcuber.utils], is not
    among the sources; its contract is [map(function, jobs)].  A pool of
    worker processes hands each worker its own copy of the job tuple, so a
    job sees the bounding box as the caller built it.  An executor that runs
    the jobs in the calling process, one after the other in the order of the
    list, runs them all on the one dict the tuples share: a job sees the
    bounding box as the job before it left it. *)
Inductive Executor :=
| worker_processes
| calling_process.

Fixpoint map_sharing (f : ExportArgs -> BoundingBox * SliceIO) (shared : option BoundingBox)
    (jobs : list ExportArgs) : list (BoundingBox * SliceIO) :=
  match jobs with
  | [] => []
  | (slice_number, bbox, dest_path, name, axis, dataset_path) :: jobs' =>
      let bbox := match shared with Some b => b | None => bbox end in
      let r := f (slice_number, bbox, dest_path, name, axis, dataset_path) in
      r :: map_sharing f (Some (fst r)) jobs'
  end.

Definition executor_map (executor : Executor) (f : ExportArgs -> BoundingBox * SliceIO)
    (jobs : list ExportArgs) : list (BoundingBox * SliceIO) :=
  match executor with
  | worker_processes => f <$> jobs
  | calling_process => map_sharing f None jobs
  end.

(** The resolution, [Mag] of [wkcuber.mag] (not among the sources), by the
    directory name [to_layer_name()] gives. *)
Record Mag := { to_layer_name : string }.

(** The directories that exist and the slice jobs that have run. *)
Record ExportWorld := {
  directories : gset string;
  slices_done : list (BoundingBox * SliceIO)
}.

Definition export_tiff_stack (wkw_file_path wkw_layer : string) (bbox : BoundingBox)
    (mag : Mag) (destination_path name axis : string) (executor : Executor)
    (w : ExportWorld) : ExportWorld :=
  let dirs :=
    if decide (destination_path ∈ directories w) then directories w
    else {[destination_path]} ∪ directories w in
  let dataset_path := join (join wkw_file_path wkw_layer) (to_layer_name mag) in
  let export_args := export_args_of bbox destination_path name axis dataset_path in
  {| directories := dirs;
     slices_done := slices_done w ++ executor_map executor export_tiff_slice export_args |}.

(** ** export_wkw_as_tiff.py: the command line entry *)

Definition is_space (c : ascii) : bool :=
  let n := nat_of_ascii c in
  (((9 <=? n) && (n <=? 13)) || ((28 <=? n) && (n <=? 32)))%nat.

Fixpoint lstrip (s : string) : string :=
  match s with
  | String c s' => if is_space c then lstrip s' else s
  | "" => ""
  end.

Definition strip (s : string) : string := String.rev (lstrip (String.rev (lstrip s))).

(** [s.split(",")]. *)
Fixpoint split_commas_from (cur s : string) : list string :=
  match s with
  | "" => [cur]
  | String "," s' => cur :: split_commas_from "" s'
  | String c s' => split_commas_from (cur +:+ String c "") s'
  end.

Definition split_commas (s : string) : list string := split_commas_from "" s.

(** The parsed command line, with the executor its distribution flags
    select. *)
Record Args := {
  source_path : string;
  destination_path : string;
  layer_name : string;
  name : option string;
  axis : string;
  bbox : option string;
  mag : string;
  executor : Executor
}.

(** [wkcuber.metadata] and [wkcuber.mag] are not among the sources: what
    they read from the dataset's manifest, and the resolution they parse, is
    given. *)
Record Metadata := {
  read_metadata_for_layer : string -> string -> result BoundingBox;
  read_datasource_properties_id_name : string -> result string;
  Mag_of : string -> Mag
}.

Definition parse_bbox (text : string) : result BoundingBox :=
  bbox ← comprehension (fun s => py_int (strip s)) (split_commas text);
  match bbox with
  | [t0; t1; t2; s0; s1; s2] =>
      Ok {| bbox_topleft := (t0, t1, t2); bbox_size := (s0, s1, s2) |}
  | _ => Raise AssertionError
  end.

Definition main (meta : Metadata) (args : Args) (w : ExportWorld) : result unit * ExportWorld :=
  if negb (bool_decide (axis args ∈ ["x"; "y"; "z"])) then (Raise AssertionError, w)
  else
    match
      (bbox ← match bbox args with
              | None => read_metadata_for_layer meta (source_path args) (layer_name args)
              | Some text => parse_bbox text
              end;
       name ← match name args with
              | None => read_datasource_properties_id_name meta (source_path args)
              | Some n => Ok n
              end;
       Ok (bbox, name))
    with
    | Raise e => (Raise e, w)
    | Ok (bbox, name) =>
        (Ok (),
         export_tiff_stack (source_path args) (layer_name args) bbox (Mag_of meta (mag args))
           (destination_path args) name (axis args) (executor args) w)
    end.

(** ** Worlds and inputs used in the examples *)

Definition empty_properties : Properties :=
  {| p_path := "/data/ds/datasource-properties.json"; p_name := "ds"; data_layers := ∅ |}.

(** A dataset just created at [/data/ds]: no layer, an empty directory. *)
Definition fresh_world : World :=
  {| dataset := {| ds_class := WKDataset; layers := ∅; path := "/data/ds";
                   properties := empty_properties; data_format := "wkw" |};
     disk := {| manifest := ∅; entries := ∅; foreign := ∅ |} |}.

Definition color_layer : Layer :=
  {| l_class := WKLayer; l_name := "color"; l_dtype_per_channel := uint8;
     l_num_channels := 1; l_mags := ∅ |}.

Definition color_properties : LayerProperties :=
  {| lp_name := "color"; lp_category := "color"; lp_element_class := "uint8";
     lp_data_format := "wkw"; lp_num_channels := 1; lp_wkw_magnifications := [] |}.

(** The same dataset with one layer, "color", of one [uint8] channel. *)
Definition color_world : World :=
  {| dataset := {| ds_class := WKDataset; layers := {["color" := color_layer]};
                   path := "/data/ds";
                   properties := {| p_path := "/data/ds/datasource-properties.json";
                                    p_name := "ds";
                                    data_layers := {["color" := color_properties]} |};
                   data_format := "wkw" |};
     disk := {| manifest := {["color" := color_properties]};
                entries := {["/data/ds/color" := Directory]};
                foreign := ∅ |} |}.

Definition seg_properties : LayerProperties :=
  {| lp_name := "seg"; lp_category := "segmentation"; lp_element_class := "uint32";
     lp_data_format := "wkw"; lp_num_channels := 1; lp_wkw_magnifications := ["1"; "2-2-1"] |}.

Definition seg_layer : Layer :=
  {| l_class := WKLayer; l_name := "seg"; l_dtype_per_channel := uint32;
     l_num_channels := 1; l_mags := {["1"; "2-2-1"]} |}.

(** The fresh dataset next to a dataset at [/data/other] that has a layer
    "seg". *)
Definition other_world : World :=
  {| dataset := dataset fresh_world;
     disk := {| manifest := ∅; entries := ∅;
                foreign := {["/data/other" := {["seg" := seg_properties]}]} |} |}.

(** ** The slice partition as the specification words it *)

(** The extent of a box along an axis, and the box of slice [i]: the source
    box with the chosen axis's [topleft] moved by [i] and its [size] set to 1. *)
Definition axis_extent (axis : string) (bbox : BoundingBox) : Z :=
  let '(s0, s1, s2) := bbox_size bbox in
  if (axis =? "x")%string then s0 else if (axis =? "y")%string then s1 else s2.

Definition spec_slice_bbox (axis : string) (i : Z) (bbox : BoundingBox) : BoundingBox :=
  let '(t0, t1, t2) := bbox_topleft bbox in
  let '(s0, s1, s2) := bbox_size bbox in
  if (axis =? "x")%string then {| bbox_topleft := (t0 + i, t1, t2); bbox_size := (1, s1, s2) |}
  else if (axis =? "y")%string then {| bbox_topleft := (t0, t1 + i, t2); bbox_size := (s0, 1, s2) |}
  else {| bbox_topleft := (t0, t1, t2 + i); bbox_size := (s0, s1, 1) |}.

(** The file name the specification gives a slice box. *)
Definition spec_tiff_name (name : string) (bbox : BoundingBox) : string :=
  let '(t0, t1, t2) := bbox_topleft bbox in
  let '(s0, s1, s2) := bbox_size bbox in
  name +:+ "_topleft_" +:+ py_str t0 +:+ "_" +:+ py_str t1 +:+ "_" +:+ py_str t2
  +:+ "_size_" +:+ py_str s0 +:+ "_" +:+ py_str s1 +:+ "_" +:+ py_str s2 +:+ ".tiff".

(** A voxel lies in a box. *)
Definition in_box (p : Z * Z * Z) (b : BoundingBox) : Prop :=
  let '(x, y, z) := p in
  let '(t0, t1, t2) := bbox_topleft b in
  let '(s0, s1, s2) := bbox_size b in
  t0 <= x < t0 + s0 /\ t1 <= y < t1 + s1 /\ t2 <= z < t2 + s2.

(** The slice boxes of an export, in the order of the job list. *)
Definition slice_boxes (executor : Executor) (bbox : BoundingBox) (axis : string) : list BoundingBox :=
  fst <$> executor_map executor export_tiff_slice (export_args_of bbox "out" "img" axis "ds/color/1").

Definition box_10_20_30 : BoundingBox :=
  {| bbox_topleft := (0, 0, 0); bbox_size := (10, 20, 30) |}.

(** ** The registry invariant and the calls that change the registry *)

(** The keys of the in-memory [layers] mapping are the layer names recorded
    in the dataset's properties. *)
Definition layers_match_properties (ds : Dataset) : Prop :=
  dom (layers ds) = dom (data_layers (properties ds)).

(** One mutating call that returns normally takes the world from [w] to [w']. *)
Inductive mutating_call (w w' : World) : Prop :=
| call_add_layer layer_name category dtype_per_layer dtype_per_channel num_channels layer :
    add_layer layer_name category dtype_per_layer dtype_per_channel num_channels w
    = (Ok layer, w') ->
    mutating_call w w'
| call_get_or_add_layer layer_name category dtype_per_layer dtype_per_channel num_channels layer :
    get_or_add_layer layer_name category dtype_per_layer dtype_per_channel num_channels w
    = (Ok layer, w') ->
    mutating_call w w'
| call_delete_layer layer_name :
    delete_layer layer_name w = (Ok (), w') ->
    mutating_call w w'
| call_add_symlink_layer foreign_layer_path layer :
    add_symlink_layer foreign_layer_path w = (Ok layer, w') ->
    mutating_call w w'.

(** The round trip of a per-channel dtype through the per-layer dtype, and
    what the specification asks of it: it gives back a dtype equal to the
    string it started from. *)
Definition round_trip (d : string) (n : Z) : result np_dtype :=
  dtype_per_layer ← dtype_per_channel_to_dtype_per_layer (Some (Name d)) (Some n);
  dtype_per_layer_to_dtype_per_channel (Some (Name dtype_per_layer)) (Some n).

Definition round_trips (d : string) (n : Z) : Prop :=
  exists dt, round_trip d n = Ok dt /\ dtype_eq_name dt d = true.

(** A string of decimal digits. *)
Fixpoint digits_only (s : string) : bool :=
  match s with
  | "" => true
  | String c s' => is_digit c && digits_only s'
  end.

(** A command line: the box of size [10, 20, 30] at the origin, a name, no
    manifest to read. *)
Definition no_metadata : Metadata :=
  {| read_metadata_for_layer := fun _ _ => Raise OSError;
     read_datasource_properties_id_name := fun _ => Raise OSError;
     Mag_of := fun m => {| to_layer_name := m |} |}.

Definition args_along (a : string) : Args :=
  {| source_path := "/data/ds"; destination_path := "/tmp/out"; layer_name := "color";
     name := Some "img"; axis := a; bbox := Some "0,0,0,10,20,30"; mag := "1";
     executor := worker_processes |}.

Definition args_along_w : Args := args_along "w".
Definition args_along_z : Args := args_along "z".

Definition nothing_exported : ExportWorld := {| directories := ∅; slices_done := [] |}.

(** ** Dataset.py: the pattern check of the tiff datasets *)

(** [s.count(c)] for a one-character [c]. *)
Fixpoint count (c : ascii) (s : string) : Z :=
  match s with
  | "" => 0
  | String a s' => (if Ascii.eqb a c then 1 else 0) + count c s'
  end.

Definition validate_pattern (pattern : string) : result unit :=
  if negb ((0 <? count "{" pattern) && (0 <? count "}" pattern)) then Raise AssertionError
  else if negb (count "{" pattern =? count "}" pattern) then Raise AssertionError
  else Ok ().

(** ** Text without digits, and the offsets of jobs that share a box *)

(** ASCII text that has no decimal digit. *)
Fixpoint nondigit_text (s : string) : bool :=
  match s with
  | "" => true
  | String c s' => negb (is_digit c) && (nat_of_ascii c <? 128)%nat && nondigit_text s'
  end.

(** Every character of a text passes a test; the characters of a written
    integer: the digits and the minus sign. *)
Fixpoint all_chars (p : ascii -> bool) (s : string) : bool :=
  match s with
  | "" => true
  | String c s' => p c && all_chars p s'
  end.

Definition sign_or_digit (c : ascii) : bool := is_digit c || Ascii.eqb c "-".

(** [0 + 1 + ... + i]. *)
Definition triangle (i : Z) : Z := i * (i + 1) / 2.

(** The text [parse_bbox] reads a box from: its six numbers, separated by
    commas. *)
Definition bbox_text (b : BoundingBox) : string :=
  let '(t0, t1, t2) := bbox_topleft b in
  let '(s0, s1, s2) := bbox_size b in
  py_str t0 +:+ "," +:+ py_str t1 +:+ "," +:+ py_str t2 +:+ ","
  +:+ py_str s0 +:+ "," +:+ py_str s1 +:+ "," +:+ py_str s2.


(** * Properties *)

(** ** Decimal text *)

Lemma append_cons (c : ascii) (s t : string) : String c s +:+ t = String c (s +:+ t).
Proof. reflexivity. Qed.

Lemma append_empty_l (s : string) : "" +:+ s = s.
Proof. reflexivity. Qed.

Lemma append_empty_r (s : string) : s +:+ "" = s.
Proof. induction s as [|c s IH]; [done|]. by rewrite append_cons, IH. Qed.

Lemma append_assoc (s t u : string) : (s +:+ t) +:+ u = s +:+ (t +:+ u).
Proof. induction s as [|c s IH]; [done|]. by rewrite !append_cons, IH. Qed.

Lemma string_of_uint_digits (d : Decimal.uint) :
  digits_only (NilEmpty.string_of_uint d) = true.
Proof. induction d; simpl; auto. Qed.

Lemma py_str_pos (p : positive) :
  py_str (Z.pos p) = NilEmpty.string_of_uint (Pos.to_uint p).
Proof.
  unfold py_str. simpl. unfold NilZero.string_of_uint.
  pose proof (Unsigned.to_uint_nonnil p). by destruct (Pos.to_uint p).
Qed.

Lemma py_str_digits (z : Z) : 0 < z -> digits_only (py_str z) = true /\ py_str z <> "".
Proof.
  destruct z as [|p|p]; [lia| |lia]. intros _. rewrite py_str_pos. split.
  - apply string_of_uint_digits.
  - pose proof (Unsigned.to_uint_nonnil p). by destruct (Pos.to_uint p).
Qed.

(** A digit run has no sign to take off. *)
Lemma py_int_digits (s : string) :
  digits_only s = true ->
  py_int s = match NilZero.uint_of_string s with
             | Some d => Ok (Z.of_uint d)
             | None => Raise ValueError
             end.
Proof.
  destruct s as [|c s]; [done|]. simpl. intros [Hc _]%andb_prop.
  destruct c as [[] [] [] [] [] [] [] []]; try discriminate Hc; reflexivity.
Qed.

(** [int(str(z)) == z]. *)
Lemma py_int_py_str (z : Z) : 0 < z -> py_int (py_str z) = Ok z.
Proof.
  intros Hz. rewrite py_int_digits by by apply py_str_digits.
  destruct z as [|p|p]; [lia| |lia]. unfold py_str. simpl.
  rewrite NilZero.usu by apply Unsigned.to_uint_nonnil.
  unfold Z.of_uint. by rewrite Unsigned.of_to.
Qed.

Lemma re_split_from_digits (cur s : string) :
  digits_only s = true -> re_split_from true cur s = [cur +:+ s; ""].
Proof.
  revert cur. induction s as [|c s IH]; intros cur Hs; simpl.
  - by rewrite append_empty_r.
  - simpl in Hs. apply andb_prop in Hs as [Hc Hs]. rewrite Hc, IH by done.
    by rewrite append_assoc, append_cons, append_empty_l.
Qed.

(** "uint" followed by a bit width splits into the kind, the width and an
    empty tail. *)
Lemma re_split_uint (s : string) :
  digits_only s = true -> s <> "" -> re_split_digits ("uint" +:+ s) = ["uint"; s; ""].
Proof.
  intros Hs Hne. destruct s as [|c s]; [done|].
  simpl in Hs. apply andb_prop in Hs as [Hc Hs].
  unfold re_split_digits. rewrite !append_cons, append_empty_l. simpl.
  rewrite Hc. by rewrite re_split_from_digits, append_cons, append_empty_l.
Qed.

(** ** The dtype conversion *)

(** Converting "uint" followed by a bit width multiplies or divides the
    width. *)
Lemma convert_dtype_parts_uint (s : string) (k n : Z) (to_per_channel : bool) :
  digits_only s = true -> s <> "" -> py_int s = Ok k ->
  convert_dtype_parts ("uint" +:+ s) (Some n) to_per_channel
  = (q ← (if to_per_channel then truediv else mul) k (Some n); Ok ("uint" +:+ py_str q)).
Proof.
  intros Hs Hne Hk. unfold convert_dtype_parts. rewrite re_split_uint by done.
  unfold comprehension, is_int. rewrite Hk.
  change (py_int "uint") with (@Raise Z ValueError).
  change (py_int "") with (@Raise Z ValueError).
  cbv [mbind result_bind String.concat].
  destruct ((if to_per_channel then truediv else mul) k (Some n)) as [q|e]; [|done].
  by rewrite !append_empty_l, append_empty_r.
Qed.

(** The round trip holds for the four unsigned widths numpy has and every
    positive number of channels. *)
Lemma dtype_round_trip_any_channels (width n : Z) :
  width ∈ [8; 16; 32; 64] ->
  0 < n ->
  round_trips ("uint" +:+ py_str width) n.
Proof.
  intros Hw Hn.
  assert (Hleg1 : exists dt,
            np_dtype_of_name ("uint" +:+ py_str width) = Ok dt /\
            dtype_name dt = "uint" +:+ py_str width /\ 0 < width).
  { repeat (apply elem_of_cons in Hw as [-> | Hw]); try (by apply elem_of_nil in Hw);
      eexists; (split; [by vm_compute|]); split; by vm_compute. }
  destruct Hleg1 as (dt & Hdt & Hname & Hpos).
  exists dt. split; [|unfold dtype_eq_name; rewrite Hdt; by rewrite bool_decide_eq_true_2].
  assert (Hprod : 0 < width * n) by by apply Z.mul_pos_pos.
  destruct (py_str_digits width Hpos) as [Hd Hne].
  destruct (py_str_digits (width * n) Hprod) as [Hd' Hne'].
  unfold round_trip, dtype_per_channel_to_dtype_per_layer, np_dtype_of.
  rewrite Hdt. unfold mbind at 2, result_bind at 2. unfold str_dtype. rewrite Hname.
  rewrite (convert_dtype_parts_uint _ width n false Hd Hne (py_int_py_str _ Hpos)).
  unfold mul, mbind, result_bind.
  unfold dtype_per_layer_to_dtype_per_channel, convert_dtypes, str_dtype.
  rewrite (convert_dtype_parts_uint _ (width * n) n true Hd' Hne' (py_int_py_str _ Hprod)).
  unfold truediv. rewrite (proj2 (Z.eqb_neq n 0)) by lia.
  unfold mbind, result_bind, fmap, result_fmap, option_fmap, option_map, np_dtype_of.
  rewrite Z.quot_mul by lia. exact Hdt.
Qed.

(** C2, as the code has it.  For the per-channel dtypes "uint8", "uint16",
    "uint32" and "uint64" and one to four channels, converting to the
    per-layer dtype and back gives a dtype equal to the one started from. *)
Theorem dtype_round_trip (width n : Z) :
  width ∈ [8; 16; 32; 64] ->
  n ∈ [1; 2; 3; 4] ->
  round_trips ("uint" +:+ py_str width) n.
Proof.
  intros Hw Hn. apply dtype_round_trip_any_channels; [done|].
  repeat (apply elem_of_cons in Hn as [-> | Hn]); try lia. by apply elem_of_nil in Hn.
Qed.

Lemma dtype_round_trip_witness :
  8 ∈ [8; 16; 32; 64] /\ 3 ∈ [1; 2; 3; 4] /\
  dtype_per_channel_to_dtype_per_layer (Some (Name "uint8")) (Some 3) = Ok "uint24" /\
  round_trips "uint8" 3.
Proof.
  assert (Hw : 8 ∈ [8; 16; 32; 64]) by repeat constructor.
  assert (Hn : 3 ∈ [1; 2; 3; 4]) by repeat constructor.
  split; [done|]. split; [done|]. split; [by vm_compute|].
  exact (dtype_round_trip 8 3 Hw Hn).
Defined.

(** C2 as stated fails at the bit width 24: numpy has no "uint24", and the
    conversion of that per-channel dtype raises [TypeError]. *)
Lemma dtype_round_trip_fails_for_uint24 :
  24 ∈ [8; 16; 24; 32; 64] /\ 1 ∈ [1; 2; 3; 4] /\ Z.rem (24 * 1) 1 = 0 /\
  dtype_per_channel_to_dtype_per_layer (Some (Name "uint24")) (Some 1) = Raise TypeError /\
  ~ round_trips ("uint" +:+ py_str 24) 1.
Proof.
  split; [set_solver|]. split; [set_solver|]. split; [done|]. split; [by vm_compute|].
  intros (dt & H & _). vm_compute in H. discriminate.
Qed.

(** ** add_layer *)

(** C8.  A call of [add_layer] with both a per-layer and a per-channel dtype
    raises AmbiguousDtypeError (Python's [AttributeError]) and leaves the
    dataset and the disk as they were: no layer is added. *)
Theorem add_layer_both_dtypes_is_ambiguous (layer_name category : string)
    (dtype_per_layer dtype_per_channel : dtype_like) (num_channels : option Z) (w : World) :
  add_layer layer_name category (Some dtype_per_layer) (Some dtype_per_channel) num_channels w
  = (Raise AmbiguousDtypeError, w).
Proof. reflexivity. Qed.

(** C6, as the code has it.  On a dataset that has a layer of that name,
    [add_layer] raises and leaves the layers mapping, the properties and the
    disk as they were.  The dtype arguments are settled before the name is
    looked up: the error is DuplicateLayerError (Python's [IndexError]) when
    they are accepted, and the error of the dtype handling otherwise. *)
Theorem add_layer_existing_name_raises (layer_name category : string)
    (dtype_per_layer dtype_per_channel : option dtype_like) (num_channels : option Z)
    (w : World) :
  layer_name ∈ dom (layers (dataset w)) ->
  add_layer layer_name category dtype_per_layer dtype_per_channel num_channels w
  = (Raise match add_layer_dtypes dtype_per_layer dtype_per_channel
                   (match num_channels with None => 1 | Some n => n end) with
           | Ok _ => DuplicateLayerError
           | Raise e => e
           end, w).
Proof.
  intros Hin. unfold add_layer, mbind, M_bind, lift.
  destruct (add_layer_dtypes _ _ _) as [[l c]|e]; [|done].
  simpl. by rewrite decide_True.
Qed.

Lemma add_layer_existing_name_raises_witness :
  "color" ∈ dom (layers (dataset color_world)) /\
  add_layer "color" "segmentation" (Some (Name "uint16")) None (Some 1) color_world
  = (Raise DuplicateLayerError, color_world).
Proof.
  assert (Hin : "color" ∈ dom (layers (dataset color_world))) by by vm_compute.
  split; [done|].
  exact (add_layer_existing_name_raises "color" "segmentation" (Some (Name "uint16")) None
           (Some 1) color_world Hin).
Defined.

(** C6 as stated fails: the dataset has a layer "color", and [add_layer]
    with that name and both dtypes raises [AttributeError], which is not
    DuplicateLayerError. *)
Lemma add_layer_existing_name_not_always_duplicate_error :
  "color" ∈ dom (layers (dataset color_world)) /\
  fst (add_layer "color" "color" (Some (Name "uint8")) (Some (Name "uint8")) None color_world)
  = Raise AttributeError /\
  fst (add_layer "color" "color" (Some (Name "uint8")) (Some (Name "uint8")) None color_world)
  <> Raise DuplicateLayerError.
Proof. split; [by vm_compute|]. split; [done|]. discriminate. Qed.

(** C9.  Without a per-layer and without a per-channel dtype, [add_layer]
    settles on the per-layer dtype "uint" followed by eight times the number
    of channels and on the per-channel dtype [uint8]; on a dataset that does
    not have the name, the layer it returns has that per-channel dtype and
    the properties record that per-layer dtype: "uint24" and "uint8" for
    three channels. *)
Theorem add_layer_default_dtype (layer_name category : string) (num_channels : option Z)
    (w : World) :
  layers_match_properties (dataset w) ->
  layer_name ∉ dom (layers (dataset w)) ->
  let n := match num_channels with None => 1 | Some n => n end in
  add_layer_dtypes None None n = Ok ("uint" +:+ py_str (8 * n), uint8) /\
  exists layer w',
    add_layer layer_name category None None num_channels w = (Ok layer, w') /\
    layers (dataset w') !! layer_name = Some layer /\
    dtype_name (l_dtype_per_channel layer) = "uint8" /\
    l_num_channels layer = n /\
    lp_element_class <$> data_layers (properties (dataset w')) !! layer_name
    = Some ("uint" +:+ py_str (8 * n)) /\
    (num_channels = Some 3 ->
     lp_element_class <$> data_layers (properties (dataset w')) !! layer_name
     = Some "uint24").
Proof.
  intros Hm Hnew n. unfold layers_match_properties in Hm. split; [done|]. subst n.
  unfold add_layer, Properties_add_layer, Properties_export_as_json, _create_layer,
    getitem, set_layers, set_data_layers, set_manifest, set_entries,
    mbind, M_bind, mret, M_ret, raise, lift, self.
  simpl. rewrite decide_False by done. rewrite <- Hm, decide_False by done.
  simpl. rewrite lookup_insert_eq. do 2 eexists. split; [done|]. simpl.
  rewrite !lookup_insert_eq. repeat split; try done.
  by intros ->.
Qed.

Lemma add_layer_default_dtype_witness :
  layers_match_properties (dataset fresh_world) /\
  ("color" ∉ dom (layers (dataset fresh_world))) /\
  exists layer w',
    add_layer "color" "color" None None (Some 3) fresh_world = (Ok layer, w') /\
    dtype_name (l_dtype_per_channel layer) = "uint8" /\
    lp_element_class <$> data_layers (properties (dataset w')) !! "color" = Some "uint24".
Proof.
  assert (Hm : layers_match_properties (dataset fresh_world)) by by vm_compute.
  assert (Hnew : "color" ∉ dom (layers (dataset fresh_world))).
  { unfold fresh_world. simpl. set_solver. }
  split; [done|]. split; [done|].
  destruct (add_layer_default_dtype "color" "color" (Some 3) fresh_world Hm Hnew)
    as (_ & layer & w' & Hcall & _ & Hc & _ & _ & Hl).
  exists layer, w'. auto.
Defined.

(** ** get_or_add_layer *)

(** C10.  On a dataset that has the layer, [get_or_add_layer] without a
    per-layer dtype compares no dtype: whatever per-channel dtype is passed,
    the existing layer is returned (its category and, when given, its number
    of channels being the ones asked for), and nothing changes. *)
Theorem get_or_add_layer_ignores_dtype_per_channel (layer_name category : string)
    (dtype_per_channel : option dtype_like) (num_channels : option Z)
    (layer : Layer) (layer_properties : LayerProperties) (w : World) :
  layers (dataset w) !! layer_name = Some layer ->
  data_layers (properties (dataset w)) !! layer_name = Some layer_properties ->
  lp_category layer_properties = category ->
  (num_channels = None \/ num_channels = Some (l_num_channels layer)) ->
  get_or_add_layer layer_name category None dtype_per_channel num_channels w
  = (Ok layer, w).
Proof.
  intros Hl Hp Hc Hn. unfold get_or_add_layer, getitem, assert, mbind, M_bind, mret, M_ret,
    raise, lift, self.
  rewrite decide_True by by apply elem_of_dom_2 in Hl.
  rewrite Hp, Hl, Hc, String.eqb_refl. simpl.
  destruct Hn as [-> | ->]; [done|]. by rewrite Z.eqb_refl.
Qed.

Lemma get_or_add_layer_ignores_dtype_per_channel_witness :
  layers (dataset color_world) !! "color" = Some color_layer /\
  l_dtype_per_channel color_layer = uint8 /\
  get_or_add_layer "color" "color" None (Some (Name "uint16")) None color_world
  = (Ok color_layer, color_world).
Proof.
  assert (Hl : layers (dataset color_world) !! "color" = Some color_layer) by by vm_compute.
  assert (Hp : data_layers (properties (dataset color_world)) !! "color"
               = Some color_properties) by by vm_compute.
  split; [done|]. split; [done|].
  exact (get_or_add_layer_ignores_dtype_per_channel "color" "color" (Some (Name "uint16")) None
           color_layer color_properties color_world Hl Hp eq_refl (or_introl eq_refl)).
Defined.

(** C7 at a failing input.  On the fresh dataset, [get_or_add_layer] with
    the per-layer dtype "uint8" and no number of channels adds the layer; the
    same call again, on the dataset the first call left, raises [TypeError]:
    the branch for an existing layer divides the bit width by [None], where
    [add_layer] had put 1 for a missing number of channels. *)
Theorem get_or_add_layer_twice_without_num_channels :
  get_or_add_layer "color" "color" (Some (Name "uint8")) None None fresh_world
  = (Ok color_layer, color_world) /\
  get_or_add_layer "color" "color" (Some (Name "uint8")) None None color_world
  = (Raise TypeError, color_world).
Proof. split; by vm_compute. Qed.

(** With the number of channels passed, the second call returns the layer of
    the first and changes nothing; the layer table has the one entry. *)
Lemma get_or_add_layer_twice_with_num_channels :
  get_or_add_layer "color" "color" (Some (Name "uint8")) None (Some 1) fresh_world
  = (Ok color_layer, color_world) /\
  get_or_add_layer "color" "color" (Some (Name "uint8")) None (Some 1) color_world
  = (Ok color_layer, color_world) /\
  size (data_layers (properties (dataset color_world))) = 1%nat.
Proof. split; [by vm_compute|]. split; by vm_compute. Qed.

(** ** The registry invariant *)

Ltac run_in Hcall :=
  unfold add_layer, get_or_add_layer, delete_layer, add_symlink_layer,
    Properties_add_layer, Properties_delete_layer, Properties_export_as_json,
    _create_layer, rmtree, symlink, open_properties, getitem, assert,
    set_layers, set_data_layers, set_manifest, set_entries,
    mbind, M_bind, mret, M_ret, raise, lift, self in Hcall;
  simpl in Hcall.

Lemma add_layer_keeps_match layer_name category dtype_per_layer dtype_per_channel
    num_channels layer w w' :
  layers_match_properties (dataset w) ->
  add_layer layer_name category dtype_per_layer dtype_per_channel num_channels w
  = (Ok layer, w') ->
  layers_match_properties (dataset w').
Proof.
  unfold layers_match_properties. intros Hm Hcall. run_in Hcall.
  destruct (add_layer_dtypes _ _ _) as [[l c]|e]; [|done].
  simpl in Hcall. repeat (case_decide; try done).
  repeat (case_match; simplify_eq/=; try done).
  all: rewrite ?dom_insert_L; congruence.
Qed.

Lemma setup_mag_effect layer_name mag w :
  exists w',
    setup_mag layer_name mag w = (Ok (), w') /\
    dom (layers (dataset w')) = dom (layers (dataset w)) /\
    properties (dataset w') = properties (dataset w) /\
    disk w' = disk w.
Proof.
  unfold setup_mag, set_layers. eexists. split; [done|]. simpl.
  split; [|done]. destruct (layers (dataset w) !! layer_name) eqn:Hl; [|done].
  rewrite dom_insert_L. apply elem_of_dom_2 in Hl.
  apply subseteq_union_1_L. by apply singleton_subseteq_l.
Qed.

Lemma setup_mags_effect layer_name mags w :
  exists w',
    for_each mags (setup_mag layer_name) w = (Ok (), w') /\
    dom (layers (dataset w')) = dom (layers (dataset w)) /\
    properties (dataset w') = properties (dataset w) /\
    disk w' = disk w.
Proof.
  revert w. induction mags as [|mag mags IH]; intros w.
  - by exists w.
  - destruct (setup_mag_effect layer_name mag w) as (w1 & H1 & Hl1 & Hp1 & Hd1).
    destruct (IH w1) as (w2 & H2 & Hl2 & Hp2 & Hd2).
    exists w2. simpl. unfold mbind, M_bind. rewrite H1, H2.
    repeat split; congruence.
Qed.

Lemma get_or_add_layer_keeps_match layer_name category dtype_per_layer dtype_per_channel
    num_channels layer w w' :
  layers_match_properties (dataset w) ->
  get_or_add_layer layer_name category dtype_per_layer dtype_per_channel num_channels w
  = (Ok layer, w') ->
  layers_match_properties (dataset w').
Proof.
  intros Hm Hcall. unfold get_or_add_layer in Hcall.
  unfold mbind at 1, M_bind at 1, self at 1 in Hcall.
  case_decide; [|by eapply add_layer_keeps_match].
  run_in Hcall. repeat (case_match; simplify_eq/=; try done).
Qed.

Lemma delete_layer_keeps_match layer_name w w' :
  layers_match_properties (dataset w) ->
  delete_layer layer_name w = (Ok (), w') ->
  layers_match_properties (dataset w').
Proof.
  unfold layers_match_properties. intros Hm Hcall. run_in Hcall.
  case_decide; [done|].
  repeat (case_match; simplify_eq/=; try done).
  all: rewrite !dom_delete_L; congruence.
Qed.

Lemma add_symlink_layer_keeps_match foreign_layer_path layer w w' :
  layers_match_properties (dataset w) ->
  add_symlink_layer foreign_layer_path w = (Ok layer, w') ->
  layers_match_properties (dataset w').
Proof.
  unfold layers_match_properties. intros Hm Hcall. unfold add_symlink_layer in Hcall.
  unfold mbind at 1, M_bind at 1, self at 1 in Hcall.
  case_decide; [done|].
  run_in Hcall.
  repeat (case_match; simplify_eq/=; try done).
  all: match goal with
       | E : for_each ?l (setup_mag ?n) ?w0 = _ |- _ =>
           destruct (setup_mags_effect n l w0) as (w2 & E' & Hl & Hp & _);
           rewrite E' in E; simplify_eq; rewrite Hl, Hp; simpl
       end.
  all: rewrite !dom_insert_L; congruence.
Qed.

(** C3.  A mutating call ([add_layer], [get_or_add_layer], [delete_layer],
    [add_symlink_layer]) that returns normally on a dataset whose [layers]
    keys are the layer names of its properties leaves a dataset whose
    [layers] keys are the layer names of its properties. *)
Theorem mutating_call_keeps_layers_and_properties_in_step (w w' : World) :
  layers_match_properties (dataset w) ->
  mutating_call w w' ->
  layers_match_properties (dataset w').
Proof.
  intros Hm [? ? ? ? ? ? Hcall | ? ? ? ? ? ? Hcall | ? Hcall | ? ? Hcall].
  - by eapply add_layer_keeps_match.
  - by eapply get_or_add_layer_keeps_match.
  - by eapply delete_layer_keeps_match.
  - by eapply add_symlink_layer_keeps_match.
Qed.

Lemma mutating_call_keeps_layers_and_properties_in_step_witness :
  layers_match_properties (dataset fresh_world) /\
  mutating_call fresh_world color_world /\
  layers_match_properties (dataset color_world).
Proof.
  assert (Hm : layers_match_properties (dataset fresh_world)) by by vm_compute.
  assert (Hc : mutating_call fresh_world color_world).
  { apply (call_add_layer _ _ "color" "color" (Some (Name "uint8")) None None color_layer).
    by vm_compute. }
  split; [done|]. split; [done|].
  exact (mutating_call_keeps_layers_and_properties_in_step fresh_world color_world Hm Hc).
Defined.

(** The other calls return normally too: deleting the layer "color" gives
    the fresh dataset back, and linking the layer "seg" of the dataset at
    [/data/other] registers it with its two resolutions. *)
Lemma delete_layer_color : delete_layer "color" color_world = (Ok (), fresh_world).
Proof. by vm_compute. Qed.

Lemma add_symlink_layer_seg :
  let r := add_symlink_layer "/data/other/seg" other_world in
  fst r = Ok seg_layer /\
  data_layers (properties (dataset (snd r))) !! "seg" = Some seg_properties /\
  entries (disk (snd r)) !! "/data/ds/seg" = Some (Symlink "/data/other/seg") /\
  dom (layers (dataset (snd r))) = {["seg"]} /\
  dom (data_layers (properties (dataset (snd r)))) = {["seg"]}.
Proof.
  split; [by vm_compute|]. split; [by vm_compute|]. split; [by vm_compute|].
  split; by vm_compute.
Qed.

(** ** The slice jobs of the export *)

Lemma range_length (n : Z) : length (range n) = Z.to_nat n.
Proof. unfold range. by rewrite length_fmap, length_seq. Qed.

Lemma range_lookup (n : Z) (i : nat) :
  (i < Z.to_nat n)%nat -> range n !! i = Some (Z.of_nat i).
Proof.
  intros Hi. unfold range. rewrite list_lookup_fmap, lookup_seq_lt by done. done.
Qed.

Lemma repeat_list_lookup {A} (x : A) (n : Z) (i : nat) :
  (i < Z.to_nat n)%nat -> repeat_list x n !! i = Some x.
Proof. intros Hi. unfold repeat_list. by apply lookup_replicate_2. Qed.

(** The job list has one job per unit of the box's extent along the axis,
    and job [i] carries the slice number [i] and the caller's box. *)
Lemma export_args_length bbox destination_path name axis dataset_path :
  length (export_args_of bbox destination_path name axis dataset_path)
  = Z.to_nat (axis_extent axis bbox).
Proof.
  unfold export_args_of, axis_extent. destruct (bbox_size bbox) as [[s0 s1] s2].
  repeat case_match; unfold repeat_list;
    rewrite !length_zip_with, range_length, !length_replicate; lia.
Qed.

Lemma export_args_lookup bbox destination_path name axis dataset_path (i : nat) :
  (i < Z.to_nat (axis_extent axis bbox))%nat ->
  export_args_of bbox destination_path name axis dataset_path !! i
  = Some (Z.of_nat i, bbox, destination_path, name, axis, dataset_path).
Proof.
  unfold export_args_of, axis_extent. destruct (bbox_size bbox) as [[s0 s1] s2].
  intros Hi.
  repeat case_match;
    rewrite !lookup_zip_with, range_lookup, !repeat_list_lookup by done; done.
Qed.

(** Whatever the executor, as many slices are exported as the box is long
    along the axis. *)
Lemma slice_boxes_length executor bbox axis :
  length (slice_boxes executor bbox axis) = Z.to_nat (axis_extent axis bbox).
Proof.
  unfold slice_boxes. rewrite length_fmap.
  destruct executor; simpl.
  - by rewrite length_fmap, export_args_length.
  - rewrite <- export_args_length with (destination_path := "out") (name := "img")
      (dataset_path := "ds/color/1").
    generalize (export_args_of bbox "out" "img" axis "ds/color/1").
    generalize (@None BoundingBox).
    intros o l. revert o. induction l as [|[[[[[s b] d] n] a] p] l IH]; intros o; [done|].
    simpl. by rewrite IH.
Qed.

(** Along "y" and along "z" the job's box is the slice box of the
    specification. *)
Lemma slice_bbox_y i bbox dest_path name dataset_path :
  slice_bbox (i, bbox, dest_path, name, "y", dataset_path) = spec_slice_bbox "y" i bbox.
Proof.
  unfold slice_bbox, spec_slice_bbox, export_tiff_slice.
  destruct bbox as [[[t0 t1] t2] [[s0 s1] s2]]. reflexivity.
Qed.

Lemma slice_bbox_z i bbox dest_path name dataset_path :
  slice_bbox (i, bbox, dest_path, name, "z", dataset_path) = spec_slice_bbox "z" i bbox.
Proof.
  unfold slice_bbox, spec_slice_bbox, export_tiff_slice.
  destruct bbox as [[[t0 t1] t2] [[s0 s1] s2]]. reflexivity.
Qed.

(** Along "x" the second [if] is not an [elif]: its [else] branch runs as
    well, and moves and flattens the third axis too. *)
Lemma slice_bbox_x i t0 t1 t2 s0 s1 s2 dest_path name dataset_path :
  slice_bbox (i, {| bbox_topleft := (t0, t1, t2); bbox_size := (s0, s1, s2) |},
              dest_path, name, "x", dataset_path)
  = {| bbox_topleft := (t0 + i, t1, t2 + i); bbox_size := (1, s1, 1) |}.
Proof. reflexivity. Qed.

(** With worker processes, job [i] of an export along "y" or "z" works on
    slice [i] of the specification. *)
Lemma worker_slice_boxes_lookup bbox axis (i : nat) :
  axis = "y" \/ axis = "z" ->
  (i < Z.to_nat (axis_extent axis bbox))%nat ->
  slice_boxes worker_processes bbox axis !! i = Some (spec_slice_bbox axis (Z.of_nat i) bbox).
Proof.
  intros Hax Hi. unfold slice_boxes, executor_map.
  rewrite !list_lookup_fmap, export_args_lookup by done.
  destruct Hax as [-> | ->].
  - by rewrite <- (slice_bbox_y _ _ "out" "img" "ds/color/1").
  - by rewrite <- (slice_bbox_z _ _ "out" "img" "ds/color/1").
Qed.

(** With worker processes, the slices of an export along "y" or "z" tile the
    box: a voxel lies in the box exactly when it lies in one slice, and then
    in no other. *)
Lemma worker_slices_tile bbox axis (p : Z * Z * Z) :
  axis = "y" \/ axis = "z" ->
  in_box p bbox <->
  exists i : nat,
    (exists b, slice_boxes worker_processes bbox axis !! i = Some b /\ in_box p b) /\
    forall j b, slice_boxes worker_processes bbox axis !! j = Some b -> in_box p b -> j = i.
Proof.
  intros Hax.
  assert (Hlook : forall j b, slice_boxes worker_processes bbox axis !! j = Some b ->
            (j < Z.to_nat (axis_extent axis bbox))%nat /\
            b = spec_slice_bbox axis (Z.of_nat j) bbox).
  { intros j b Hj. assert (Hlt := lookup_lt_Some _ _ _ Hj).
    rewrite slice_boxes_length in Hlt. split; [done|].
    rewrite worker_slice_boxes_lookup in Hj by done. congruence. }
  destruct bbox as [[[t0 t1] t2] [[s0 s1] s2]], p as [[x y] z].
  split.
  - intros Hin. unfold in_box in Hin; simpl in Hin.
    exists (Z.to_nat (if (axis =? "y")%string then y - t1 else z - t2)). split.
    + eexists. rewrite worker_slice_boxes_lookup; [split; [done|] | done | ];
        destruct Hax as [-> | ->]; cbn; lia.
    + intros j b Hj Hb. apply Hlook in Hj as [Hlt ->].
      destruct Hax as [-> | ->]; cbn in *; lia.
  - intros (i & (b & Hi & Hb) & _). apply Hlook in Hi as [Hlt ->].
    destruct Hax as [-> | ->]; cbn in *; lia.
Qed.

(** C1 at a failing input.  The export along "x" of the box of size
    [10, 20, 30] at the origin has ten jobs, and job 1 works on the box at
    [1, 0, 1] of size [1, 20, 1]: not slice 1 of the box, which is the box at
    [1, 0, 0] of size [1, 20, 30]. *)
Theorem x_slices_of_box_10_20_30 :
  length (slice_boxes worker_processes box_10_20_30 "x") = 10%nat /\
  slice_boxes worker_processes box_10_20_30 "x" !! 1%nat
  = Some {| bbox_topleft := (1, 0, 1); bbox_size := (1, 20, 1) |} /\
  spec_slice_bbox "x" 1 box_10_20_30
  = {| bbox_topleft := (1, 0, 0); bbox_size := (1, 20, 30) |} /\
  slice_boxes worker_processes box_10_20_30 "x" !! 1%nat
  <> Some (spec_slice_bbox "x" 1 box_10_20_30).
Proof.
  split; [by vm_compute|]. split; [by vm_compute|]. split; [by vm_compute|].
  vm_compute. discriminate.
Qed.

(** The export of the same box along "z" with worker processes: thirty jobs,
    job [i] on the box at [0, 0, i] of size [10, 20, 1]. *)
Lemma z_slices_of_box_10_20_30 :
  slice_boxes worker_processes box_10_20_30 "z"
  = (fun i => {| bbox_topleft := (0, 0, i); bbox_size := (10, 20, 1) |}) <$> range 30.
Proof. by vm_compute. Qed.

(** In the calling process the jobs share the box: job 2 of the export along
    "z" starts from the box job 1 left, and reads at [0, 0, 3]. *)
Lemma z_slices_in_calling_process :
  take 4 (slice_boxes calling_process box_10_20_30 "z")
  = (fun i => {| bbox_topleft := (0, 0, i); bbox_size := (10, 20, 1) |}) <$> [0; 1; 3; 6].
Proof. by vm_compute. Qed.

(** ** The file name of a slice *)

(** The name does not depend on the size of the box. *)
Lemma tiff_name_ignores_size name topleft size1 size2 :
  wkw_name_and_bbox_to_tiff_name name {| bbox_topleft := topleft; bbox_size := size1 |}
  = wkw_name_and_bbox_to_tiff_name name {| bbox_topleft := topleft; bbox_size := size2 |}.
Proof. reflexivity. Qed.

(** C4 at a failing input.  For the slice box at [0, 0, 5] of size
    [10, 20, 1] the file name is "img_topleft_0_0_5_size_0_0_5.tiff": its
    size fields repeat the [topleft] values, where the name that encodes the
    box is "img_topleft_0_0_5_size_10_20_1.tiff". *)
Theorem tiff_name_of_slice_5 :
  wkw_name_and_bbox_to_tiff_name "img" {| bbox_topleft := (0, 0, 5); bbox_size := (10, 20, 1) |}
  = "img_topleft_0_0_5_size_0_0_5.tiff" /\
  spec_tiff_name "img" {| bbox_topleft := (0, 0, 5); bbox_size := (10, 20, 1) |}
  = "img_topleft_0_0_5_size_10_20_1.tiff" /\
  wkw_name_and_bbox_to_tiff_name "img" {| bbox_topleft := (0, 0, 5); bbox_size := (10, 20, 1) |}
  <> spec_tiff_name "img" {| bbox_topleft := (0, 0, 5); bbox_size := (10, 20, 1) |}.
Proof.
  split; [by vm_compute|]. split; [by vm_compute|]. vm_compute. discriminate.
Qed.

(** ** The command line entry *)

(** C5.  With an axis argument other than "x", "y" and "z", the export
    fails with InvalidAxisError (the [AssertionError] of the entry's [assert])
    and the world is as before: no directory made, no slice job built or
    run. *)
Theorem main_rejects_other_axis (meta : Metadata) (args : Args) (w : ExportWorld) :
  axis args ∉ ["x"; "y"; "z"] ->
  main meta args w = (Raise InvalidAxisError, w).
Proof. intros Hax. unfold main. by rewrite bool_decide_eq_false_2. Qed.

Lemma main_rejects_other_axis_witness :
  ("w" ∉ ["x"; "y"; "z"]) /\
  main no_metadata args_along_w nothing_exported = (Raise InvalidAxisError, nothing_exported).
Proof.
  assert (Hax : axis args_along_w ∉ ["x"; "y"; "z"]).
  { intros Hin. repeat (apply elem_of_cons in Hin as [Heq | Hin]; [discriminate Heq|]).
    by apply elem_of_nil in Hin. }
  split; [done|].
  exact (main_rejects_other_axis no_metadata args_along_w nothing_exported Hax).
Defined.

(** With a valid axis the same command line runs its thirty jobs. *)
Lemma main_along_z :
  let r := main no_metadata args_along_z nothing_exported in
  fst r = Ok () /\
  length (slices_done (snd r)) = 30%nat /\
  directories (snd r) = {["/tmp/out"]}.
Proof. split; [by vm_compute|]. split; by vm_compute. Qed.

(** [export_tiff_stack] itself does not look at the axis: called with
    another axis, it exports along "z". *)
Lemma export_tiff_stack_other_axis :
  slice_boxes worker_processes box_10_20_30 "w" = slice_boxes worker_processes box_10_20_30 "z".
Proof. by vm_compute. Qed.

(** * Further properties *)

(** ** Text and numbers *)

Lemma uint_of_string_nondigit (c : ascii) (t : string) :
  is_digit c = false -> NilEmpty.uint_of_string (String c t) = None.
Proof.
  intros Hc. simpl. destruct (NilEmpty.uint_of_string t); [|done].
  destruct c as [[] [] [] [] [] [] [] []]; try discriminate Hc; reflexivity.
Qed.

Lemma py_int_nondigit (s : string) : nondigit_text s = true -> py_int s = Raise ValueError.
Proof.
  assert (Hu : forall t, nondigit_text t = true -> NilZero.uint_of_string t = None).
  { intros [|c t] Ht; [done|]. simpl in Ht.
    apply andb_prop in Ht as [[Hc _]%andb_prop _]. apply negb_true_iff in Hc.
    unfold NilZero.uint_of_string. by apply uint_of_string_nondigit. }
  intros Hs. destruct s as [|c t]; [done|].
  assert (Ht : nondigit_text t = true) by (simpl in Hs; by apply andb_prop in Hs as [_ ?]).
  pose proof (Hu _ Hs) as Hs'. pose proof (Hu _ Ht) as Ht'.
  unfold py_int. rewrite Hs', Ht'.
  destruct c as [[] [] [] [] [] [] [] []]; reflexivity.
Qed.

Lemma re_split_from_nondigit (s cur rest : string) :
  nondigit_text s = true ->
  re_split_from false cur (s +:+ rest) = re_split_from false (cur +:+ s) rest.
Proof.
  revert cur. induction s as [|c s IH]; intros cur Hs.
  - by rewrite append_empty_l, append_empty_r.
  - simpl in Hs. apply andb_prop in Hs as [[Hc _]%andb_prop Hs].
    apply negb_true_iff in Hc.
    rewrite append_cons. simpl. rewrite Hc, IH by done.
    by rewrite append_assoc, append_cons, append_empty_l.
Qed.

Lemma re_split_kind (kind s : string) :
  nondigit_text kind = true -> digits_only s = true -> s <> "" ->
  re_split_digits (kind +:+ s) = [kind; s; ""].
Proof.
  intros Hk Hs Hne. unfold re_split_digits.
  rewrite re_split_from_nondigit, append_empty_l by done.
  destruct s as [|c s]; [done|]. simpl in Hs. apply andb_prop in Hs as [Hc Hs].
  simpl. rewrite Hc. by rewrite re_split_from_digits, append_cons, append_empty_l.
Qed.

(** A kind followed by a bit width: the width is multiplied or divided, the
    kind is kept. *)
Lemma convert_dtype_parts_kind (kind s : string) (k : Z) (num_channels : option Z)
    (to_per_channel : bool) :
  nondigit_text kind = true -> digits_only s = true -> s <> "" -> py_int s = Ok k ->
  convert_dtype_parts (kind +:+ s) num_channels to_per_channel
  = (q ← (if to_per_channel then truediv else mul) k num_channels; Ok (kind +:+ py_str q)).
Proof.
  intros Hkind Hs Hne Hk. unfold convert_dtype_parts. rewrite re_split_kind by done.
  unfold comprehension, is_int. rewrite Hk, (py_int_nondigit kind Hkind).
  change (py_int "") with (@Raise Z ValueError).
  cbv [mbind result_bind String.concat].
  destruct ((if to_per_channel then truediv else mul) k num_channels) as [q|e]; [|done].
  by rewrite !append_empty_l, append_empty_r.
Qed.

(** ** More on the dtype conversion *)

(** X1.  A dtype name of ASCII text without a digit comes out of
    [convert_dtypes] as it went in, in both directions and whatever the
    number of channels, [None] and 0 included: no arithmetic is done. *)
Theorem convert_dtypes_keeps_text_without_digits (s : string) (num_channels : option Z)
    (to_per_channel : bool) :
  nondigit_text s = true ->
  convert_dtypes (Some (Name s)) num_channels to_per_channel = Ok (Some s).
Proof.
  intros Hs. unfold convert_dtypes, convert_dtype_parts, str_dtype, re_split_digits.
  rewrite <- (append_empty_r s) at 1.
  rewrite re_split_from_nondigit, append_empty_l by done.
  simpl. unfold is_int. by rewrite py_int_nondigit.
Qed.

Lemma convert_dtypes_keeps_text_without_digits_witness :
  nondigit_text "float" = true /\
  convert_dtypes (Some (Name "float")) None true = Ok (Some "float").
Proof.
  assert (Hs : nondigit_text "float" = true) by reflexivity.
  split; [done|].
  exact (convert_dtypes_keeps_text_without_digits "float" None true Hs).
Defined.

Lemma py_str_inj (a b : Z) : py_str a = py_str b -> a = b.
Proof.
  assert (Hn : forall z, Z.to_int z <> Decimal.Pos Decimal.Nil /\
                         Z.to_int z <> Decimal.Neg Decimal.Nil).
  { intros [|p|p]; simpl; split; try discriminate;
      intros [= H]; by apply Unsigned.to_uint_nonnil in H. }
  unfold py_str. intros H. apply (f_equal NilZero.int_of_string) in H.
  rewrite !NilZero.isi in H by apply Hn.
  apply DecimalZ.to_int_inj. congruence.
Qed.

(** A name [numpy.dtype] accepts is the name of the dtype it gives. *)
Lemma np_dtype_of_name_Ok (s : string) (dt : np_dtype) :
  np_dtype_of_name s = Ok dt -> dtype_name dt = s.
Proof.
  unfold np_dtype_of_name. destruct (List.find _ _) as [dt'|] eqn:E; [|done].
  intros [= <-]. apply List.find_some in E as [_ E]. by apply String.eqb_eq.
Qed.



(** X3.  With a per-layer dtype "uint<w>", the conversion to the
    per-channel dtype raises [ZeroDivisionError] for zero channels (the
    [except TypeError] does not catch it) and [TypeError] when the number of
    channels is [None]. *)
Theorem per_channel_dtype_without_channels (w : Z) :
  0 < w ->
  dtype_per_layer_to_dtype_per_channel (Some (Name ("uint" +:+ py_str w))) (Some 0)
  = Raise ZeroDivisionError /\
  dtype_per_layer_to_dtype_per_channel (Some (Name ("uint" +:+ py_str w))) None
  = Raise TypeError.
Proof.
  intros Hw. destruct (py_str_digits w Hw) as [Hd Hne].
  unfold dtype_per_layer_to_dtype_per_channel, convert_dtypes, str_dtype.
  by rewrite !(convert_dtype_parts_kind "uint" _ w _ true eq_refl Hd Hne (py_int_py_str _ Hw)).
Qed.

Lemma per_channel_dtype_without_channels_witness :
  0 < 24 /\
  dtype_per_layer_to_dtype_per_channel (Some (Name "uint24")) (Some 0) = Raise ZeroDivisionError /\
  dtype_per_layer_to_dtype_per_channel (Some (Name "uint24")) None = Raise TypeError.
Proof.
  assert (Hw : 0 < 24) by reflexivity.
  split; [done|]. exact (per_channel_dtype_without_channels 24 Hw).
Defined.

(** X4.  The round trip from the per-layer side: for a per-layer dtype
    "uint<w*n>" with [w] one of 8, 16, 32, 64 and [n] channels, converting to
    the per-channel dtype and back gives the per-layer dtype again. *)
Theorem per_layer_dtype_round_trip (w n : Z) :
  w ∈ [8; 16; 32; 64] -> 0 < n ->
  exists dt,
    dtype_per_layer_to_dtype_per_channel (Some (Name ("uint" +:+ py_str (w * n)))) (Some n)
    = Ok dt /\
    dtype_name dt = "uint" +:+ py_str w /\
    dtype_per_channel_to_dtype_per_layer (Some (Dtype dt)) (Some n)
    = Ok ("uint" +:+ py_str (w * n)).
Proof.
  intros Hw Hn.
  assert (Hleg : exists dt,
            np_dtype_of_name ("uint" +:+ py_str w) = Ok dt /\
            dtype_name dt = "uint" +:+ py_str w /\ 0 < w).
  { repeat (apply elem_of_cons in Hw as [-> | Hw]); try (by apply elem_of_nil in Hw);
      eexists; (split; [by vm_compute|]); split; by vm_compute. }
  destruct Hleg as (dt & Hdt & Hname & Hpos). exists dt.
  assert (Hprod : 0 < w * n) by by apply Z.mul_pos_pos.
  destruct (py_str_digits w Hpos) as [Hd Hne].
  destruct (py_str_digits (w * n) Hprod) as [Hd' Hne'].
  split; [|split; [done|]].
  - unfold dtype_per_layer_to_dtype_per_channel, convert_dtypes, str_dtype.
    rewrite (convert_dtype_parts_kind "uint" _ (w * n) (Some n) true eq_refl Hd' Hne'
               (py_int_py_str _ Hprod)).
    unfold truediv. rewrite (proj2 (Z.eqb_neq n 0)) by lia.
    unfold mbind, result_bind, fmap, result_fmap, option_fmap, option_map, np_dtype_of.
    by rewrite Z.quot_mul by lia.
  - unfold dtype_per_channel_to_dtype_per_layer, np_dtype_of, mbind, result_bind, str_dtype.
    rewrite Hname.
    by rewrite (convert_dtype_parts_kind "uint" _ w (Some n) false eq_refl Hd Hne
                  (py_int_py_str _ Hpos)).
Qed.

Lemma per_layer_dtype_round_trip_witness :
  8 ∈ [8; 16; 32; 64] /\ 0 < 3 /\
  dtype_per_layer_to_dtype_per_channel (Some (Name "uint24")) (Some 3) = Ok uint8 /\
  dtype_per_channel_to_dtype_per_layer (Some (Dtype uint8)) (Some 3) = Ok "uint24".
Proof.
  assert (Hw : 8 ∈ [8; 16; 32; 64]) by repeat constructor.
  assert (Hn : 0 < 3) by reflexivity.
  split; [done|]. split; [done|].
  destruct (per_layer_dtype_round_trip 8 3 Hw Hn) as (dt & H1 & Hname & H2).
  assert (Hdt : dt = uint8) by (by destruct dt).
  rewrite Hdt in H1, H2. split; [exact H1 | exact H2].
Defined.


Lemma np_dtype_of_dtype_name (dt : np_dtype) : np_dtype_of_name (dtype_name dt) = Ok dt.
Proof. by destruct dt. Qed.

(** [str(numpy.dtype(l))] of a name numpy accepts is the name, so the
    per-layer dtype [add_layer] goes on with is the string it was given. *)
Lemma normalised_name (l : string) :
  match np_dtype_of (Some (Name l)) with
  | Ok dt => dtype_name dt
  | Raise _ => l
  end = l.
Proof.
  unfold np_dtype_of. destruct (np_dtype_of_name l) as [dt|] eqn:E; [|done].
  by apply np_dtype_of_name_Ok.
Qed.

(** The name of a dtype that has a bit width, cut into kind and width. *)
Lemma dtype_name_kind_bits (dt : np_dtype) :
  dt = bool_ \/
  exists kind bits,
    nondigit_text kind = true /\ 0 < bits /\ dtype_name dt = kind +:+ py_str bits.
Proof.
  destruct dt; [by left | right ..];
    [exists "int", 8 | exists "int", 16 | exists "int", 32 | exists "int", 64
    |exists "uint", 8 | exists "uint", 16 | exists "uint", 32 | exists "uint", 64
    |exists "float", 16 | exists "float", 32 | exists "float", 64
    |exists "complex", 64 | exists "complex", 128]; by vm_compute.
Qed.

(** The per-layer dtype of a dtype object: the bit width of its name is
    multiplied. *)
Lemma to_per_layer_kind_bits (dt : np_dtype) (kind : string) (bits n : Z) :
  nondigit_text kind = true -> 0 < bits -> dtype_name dt = kind +:+ py_str bits ->
  dtype_per_channel_to_dtype_per_layer (Some (Dtype dt)) (Some n)
  = Ok (kind +:+ py_str (bits * n)).
Proof.
  intros Hkind Hbits Hname. destruct (py_str_digits bits Hbits) as [Hd Hne].
  unfold dtype_per_channel_to_dtype_per_layer, np_dtype_of, mbind, result_bind, str_dtype.
  rewrite Hname.
  by rewrite (convert_dtype_parts_kind kind _ bits (Some n) false Hkind Hd Hne
                (py_int_py_str _ Hbits)).
Qed.

Lemma to_per_layer_bool (n : Z) :
  dtype_per_channel_to_dtype_per_layer (Some (Dtype bool_)) (Some n) = Ok "bool".
Proof.
  unfold dtype_per_channel_to_dtype_per_layer, np_dtype_of, mbind, result_bind, str_dtype.
  pose proof (convert_dtypes_keeps_text_without_digits "bool" (Some n) false eq_refl) as H.
  unfold convert_dtypes, str_dtype in H.
  destruct (convert_dtype_parts "bool" (Some n) false); by simplify_eq/=.
Qed.


(** X6.  What [add_layer] records can be read back: for a positive number
    of channels, the per-layer dtype it settles on, passed again as the only
    dtype argument (as the constructor does when a dataset is opened from its
    manifest), settles on the same per-layer and per-channel dtypes. *)
Theorem add_layer_dtypes_read_back (dtype_per_layer dtype_per_channel : option dtype_like)
    (n : Z) (l : string) (c : np_dtype) :
  0 < n ->
  add_layer_dtypes dtype_per_layer dtype_per_channel n = Ok (l, c) ->
  add_layer_dtypes (Some (Name l)) None n = Ok (l, c).
Proof.
  intros Hn Hd.
  assert (Hgoal : dtype_per_layer_to_dtype_per_channel (Some (Name l)) (Some n) = Ok c ->
                  add_layer_dtypes (Some (Name l)) None n = Ok (l, c)).
  { intros Hc. unfold add_layer_dtypes. cbn [str_dtype].
    rewrite normalised_name. by rewrite Hc. }
  apply Hgoal. clear Hgoal.
  assert (Hkind : forall kind bits, nondigit_text kind = true -> 0 < bits ->
            dtype_per_layer_to_dtype_per_channel
              (Some (Name (kind +:+ py_str (bits * n)))) (Some n)
            = np_dtype_of_name (kind +:+ py_str bits)).
  { intros kind bits Hk Hb.
    assert (Hprod : 0 < bits * n) by by apply Z.mul_pos_pos.
    destruct (py_str_digits _ Hprod) as [Hdig Hne].
    unfold dtype_per_layer_to_dtype_per_channel, convert_dtypes, str_dtype.
    rewrite (convert_dtype_parts_kind kind _ (bits * n) (Some n) true Hk Hdig Hne
               (py_int_py_str _ Hprod)).
    unfold truediv. rewrite (proj2 (Z.eqb_neq n 0)) by lia.
    unfold mbind, result_bind, fmap, result_fmap, option_fmap, option_map, np_dtype_of.
    by rewrite Z.quot_mul by lia. }
  unfold add_layer_dtypes in Hd.
  destruct dtype_per_layer as [x|], dtype_per_channel as [y|]; [done| | |].
  - cbn [str_dtype] in Hd.
    destruct (dtype_per_layer_to_dtype_per_channel _ _) as [c'|] eqn:Hc; [|done].
    by simplify_eq/=.
  - destruct (np_dtype_of (Some y)) as [dt|]; [|done]. simpl in Hd.
    destruct (dtype_per_channel_to_dtype_per_layer _ _) as [l'|] eqn:Hl; [|done].
    simplify_eq/=.
    destruct (dtype_name_kind_bits c) as [-> | (kind & bits & Hk & Hb & Hname)].
    + rewrite to_per_layer_bool in Hl. injection Hl as <-.
      unfold dtype_per_layer_to_dtype_per_channel.
      by rewrite (convert_dtypes_keeps_text_without_digits "bool" (Some n) true eq_refl).
    + rewrite (to_per_layer_kind_bits c kind bits n Hk Hb Hname) in Hl. injection Hl as <-.
      rewrite (Hkind kind bits Hk Hb), <- Hname. apply np_dtype_of_dtype_name.
  - change (np_dtype_of (Some (Name ("uint" +:+ py_str DEFAULT_BIT_DEPTH))))
      with (Ok uint8) in Hd.
    cbv [mbind result_bind] in Hd. injection Hd as <- <-. unfold DEFAULT_BIT_DEPTH.
    rewrite (Hkind "uint" 8 eq_refl ltac:(lia)). reflexivity.
Qed.

Lemma add_layer_dtypes_read_back_witness :
  0 < 3 /\
  add_layer_dtypes None (Some (Name "uint8")) 3 = Ok ("uint24", uint8) /\
  add_layer_dtypes (Some (Name "uint24")) None 3 = Ok ("uint24", uint8).
Proof.
  assert (Hn : 0 < 3) by reflexivity.
  assert (Hd : add_layer_dtypes None (Some (Name "uint8")) 3 = Ok ("uint24", uint8))
    by by vm_compute.
  split; [done|]. split; [done|].
  exact (add_layer_dtypes_read_back None (Some (Name "uint8")) 3 "uint24" uint8 Hn Hd).
Defined.

(** ** More on the layer operations *)

(** X7.  After [add_layer] has returned a layer, [get_layer] with the same
    name returns that layer and changes nothing; the layer carries the name
    and the number of channels asked for (1 when none was given) and the
    per-channel dtype the dtype arguments settle on, and the properties record
    the category, the number of channels and the per-layer dtype. *)
Theorem add_layer_then_get_layer (layer_name category : string)
    (dtype_per_layer dtype_per_channel : option dtype_like) (num_channels : option Z)
    (layer : Layer) (w w' : World) :
  add_layer layer_name category dtype_per_layer dtype_per_channel num_channels w
  = (Ok layer, w') ->
  let n := match num_channels with None => 1 | Some n => n end in
  get_layer layer_name w' = (Ok layer, w') /\
  l_name layer = layer_name /\
  l_num_channels layer = n /\
  exists layer_properties,
    data_layers (properties (dataset w')) !! layer_name = Some layer_properties /\
    lp_category layer_properties = category /\
    lp_num_channels layer_properties = n /\
    add_layer_dtypes dtype_per_layer dtype_per_channel n
    = Ok (lp_element_class layer_properties, l_dtype_per_channel layer).
Proof.
  intros Hcall n. subst n. run_in Hcall.
  destruct (add_layer_dtypes _ _ _) as [[l c]|e]; [|done].
  simpl in Hcall. repeat (case_decide; try done).
  repeat (case_match; simplify_eq/=; try done).
  all: unfold get_layer, getitem, mbind, M_bind, mret, M_ret, raise, self; simpl.
  all: rewrite decide_False by (rewrite dom_insert_L; set_solver).
  all: match goal with
       | E : <[_:=_]> _ !! _ = Some _ |- _ => rewrite lookup_insert_eq in E; simplify_eq
       end.
  all: rewrite lookup_insert_eq; simpl.
  all: split; [done|]; split; [done|]; split; [done|].
  all: eexists; split; [apply lookup_insert_eq|done].
Qed.

Lemma add_layer_then_get_layer_witness :
  add_layer "color" "color" (Some (Name "uint8")) None None fresh_world
  = (Ok color_layer, color_world) /\
  get_layer "color" color_world = (Ok color_layer, color_world).
Proof.
  assert (Hcall : add_layer "color" "color" (Some (Name "uint8")) None None fresh_world
                  = (Ok color_layer, color_world)) by by vm_compute.
  split; [done|].
  exact (proj1 (add_layer_then_get_layer "color" "color" (Some (Name "uint8")) None None
                  color_layer fresh_world color_world Hcall)).
Defined.

(** X8.  [add_layer] touches no other layer: under every other name the
    layers mapping and the properties are as before, and the dataset's path
    and format are kept. *)
Theorem add_layer_keeps_other_layers (layer_name category : string)
    (dtype_per_layer dtype_per_channel : option dtype_like) (num_channels : option Z)
    (layer : Layer) (w w' : World) (other : string) :
  add_layer layer_name category dtype_per_layer dtype_per_channel num_channels w
  = (Ok layer, w') ->
  other <> layer_name ->
  layers (dataset w') !! other = layers (dataset w) !! other /\
  data_layers (properties (dataset w')) !! other
  = data_layers (properties (dataset w)) !! other /\
  path (dataset w') = path (dataset w) /\
  data_format (dataset w') = data_format (dataset w).
Proof.
  intros Hcall Hne. run_in Hcall.
  destruct (add_layer_dtypes _ _ _) as [[l c]|e]; [|done].
  simpl in Hcall. repeat (case_decide; try done).
  repeat (case_match; simplify_eq/=; try done).
  all: by rewrite !lookup_insert_ne.
Qed.

Lemma add_layer_keeps_other_layers_witness :
  add_layer "color" "color" (Some (Name "uint8")) None None fresh_world
  = (Ok color_layer, color_world) /\
  "seg" <> "color" /\
  layers (dataset color_world) !! "seg" = layers (dataset fresh_world) !! "seg".
Proof.
  assert (Hcall : add_layer "color" "color" (Some (Name "uint8")) None None fresh_world
                  = (Ok color_layer, color_world)) by by vm_compute.
  assert (Hne : "seg" <> "color") by discriminate.
  split; [done|]. split; [done|].
  exact (proj1 (add_layer_keeps_other_layers "color" "color" (Some (Name "uint8")) None None
                  color_layer fresh_world color_world "seg" Hcall Hne)).
Defined.

(** X9.  After [delete_layer] has returned, the name is gone from the layers
    mapping, from the properties, from the manifest on disk and from the
    dataset directory; [get_layer] and a second [delete_layer] raise
    UnknownLayerError (an [IndexError]) and change nothing; every other
    layer is as before. *)
Theorem delete_layer_removes_the_layer (layer_name : string) (w w' : World) :
  delete_layer layer_name w = (Ok (), w') ->
  layers (dataset w') !! layer_name = None /\
  data_layers (properties (dataset w')) !! layer_name = None /\
  manifest (disk w') !! layer_name = None /\
  entries (disk w') !! join (path (dataset w)) layer_name = None /\
  get_layer layer_name w' = (Raise UnknownLayerError, w') /\
  delete_layer layer_name w' = (Raise UnknownLayerError, w') /\
  forall other, other <> layer_name ->
    layers (dataset w') !! other = layers (dataset w) !! other /\
    data_layers (properties (dataset w')) !! other
    = data_layers (properties (dataset w)) !! other.
Proof.
  intros Hcall. run_in Hcall. case_decide; [done|].
  repeat (case_match; simplify_eq/=; try done).
  unfold get_layer, delete_layer, mbind, M_bind, raise, self. simpl.
  rewrite !decide_True by apply not_elem_of_dom, lookup_delete_eq.
  rewrite !lookup_delete_eq. repeat split; try done.
  all: by rewrite lookup_delete_ne.
Qed.

Lemma delete_layer_removes_the_layer_witness :
  delete_layer "color" color_world = (Ok (), fresh_world) /\
  get_layer "color" fresh_world = (Raise UnknownLayerError, fresh_world).
Proof.
  assert (Hcall : delete_layer "color" color_world = (Ok (), fresh_world)) by by vm_compute.
  split; [done|].
  exact (proj1 (proj2 (proj2 (proj2 (proj2
    (delete_layer_removes_the_layer "color" color_world fresh_world Hcall)))))).
Defined.

(** X10.  Adding a layer and deleting it again leaves the registry as it
    was: when [add_layer] has returned on a dataset with nothing at the
    layer's path, [delete_layer] with the same name returns, and the layers
    mapping, the properties and the entries of the dataset directory are
    those from before the two calls. *)
Theorem add_layer_then_delete_layer (layer_name category : string)
    (dtype_per_layer dtype_per_channel : option dtype_like) (num_channels : option Z)
    (layer : Layer) (w w1 : World) :
  add_layer layer_name category dtype_per_layer dtype_per_channel num_channels w
  = (Ok layer, w1) ->
  entries (disk w) !! join (path (dataset w)) layer_name = None ->
  exists w2,
    delete_layer layer_name w1 = (Ok (), w2) /\
    layers (dataset w2) = layers (dataset w) /\
    data_layers (properties (dataset w2)) = data_layers (properties (dataset w)) /\
    manifest (disk w2) = data_layers (properties (dataset w)) /\
    entries (disk w2) = entries (disk w).
Proof.
  intros Hcall Hfree. run_in Hcall.
  destruct (add_layer_dtypes _ _ _) as [[l c]|e]; [|done].
  simpl in Hcall. do 2 (case_decide; try done).
  simpl in Hcall. rewrite Hfree in Hcall. simpl in Hcall.
  match type of Hcall with
  | context [<[?k:=?v]> (layers (dataset w)) !! ?k] =>
      rewrite (lookup_insert_eq (layers (dataset w)) k v) in Hcall
  end.
  injection Hcall as <- <-.
  unfold delete_layer, Properties_delete_layer, Properties_export_as_json, rmtree,
    set_layers, set_data_layers, set_manifest, set_entries, mbind, M_bind, mret, M_ret,
    self, raise.
  simpl. rewrite decide_False by (intros Hn; apply Hn; rewrite dom_insert_L; set_solver).
  simpl. rewrite lookup_insert_eq. eexists. split; [done|]. simpl.
  rewrite !delete_insert_id; try done.
  all: by apply not_elem_of_dom.
Qed.

Lemma add_layer_then_delete_layer_witness :
  add_layer "color" "color" (Some (Name "uint8")) None None fresh_world
  = (Ok color_layer, color_world) /\
  delete_layer "color" color_world = (Ok (), fresh_world).
Proof.
  assert (Hcall : add_layer "color" "color" (Some (Name "uint8")) None None fresh_world
                  = (Ok color_layer, color_world)) by by vm_compute.
  assert (Hfree : entries (disk fresh_world) !! join (path (dataset fresh_world)) "color"
                  = None) by by vm_compute.
  split; [done|].
  destruct (add_layer_then_delete_layer "color" "color" (Some (Name "uint8")) None None
              color_layer fresh_world color_world Hcall Hfree) as (w2 & Hdel & _).
  rewrite Hdel. by vm_compute.
Defined.

(** X11.  On a dataset that has the layer, [get_or_add_layer] changes
    nothing, whether it returns the layer or raises: the dataset object and
    the disk are as before. *)
Theorem get_or_add_layer_existing_changes_nothing (layer_name category : string)
    (dtype_per_layer dtype_per_channel : option dtype_like) (num_channels : option Z)
    (w : World) :
  layer_name ∈ dom (layers (dataset w)) ->
  snd (get_or_add_layer layer_name category dtype_per_layer dtype_per_channel num_channels w)
  = w.
Proof.
  intros Hin. unfold get_or_add_layer, getitem, assert, mbind, M_bind, mret, M_ret,
    raise, lift, self.
  rewrite decide_True by done.
  repeat (case_match; simplify_eq/=; try done).
Qed.

Lemma get_or_add_layer_existing_changes_nothing_witness :
  "color" ∈ dom (layers (dataset color_world)) /\
  snd (get_or_add_layer "color" "segmentation" (Some (Name "uint16")) None (Some 2) color_world)
  = color_world.
Proof.
  assert (Hin : "color" ∈ dom (layers (dataset color_world))) by by vm_compute.
  split; [done|].
  exact (get_or_add_layer_existing_changes_nothing "color" "segmentation"
           (Some (Name "uint16")) None (Some 2) color_world Hin).
Defined.

(** X12.  When [get_or_add_layer] returns on a dataset that has the layer,
    it returns the existing layer, and the request agrees with it: the
    category is the recorded one, a number of channels that was passed is the
    layer's, and a per-layer dtype that was passed converts to the layer's
    per-channel dtype. *)
Theorem get_or_add_layer_existing_agrees (layer_name category : string)
    (dtype_per_layer dtype_per_channel : option dtype_like) (num_channels : option Z)
    (layer : Layer) (w w' : World) :
  layer_name ∈ dom (layers (dataset w)) ->
  get_or_add_layer layer_name category dtype_per_layer dtype_per_channel num_channels w
  = (Ok layer, w') ->
  layers (dataset w) !! layer_name = Some layer /\
  lp_category <$> data_layers (properties (dataset w)) !! layer_name = Some category /\
  (num_channels = None \/ num_channels = Some (l_num_channels layer)) /\
  (dtype_per_layer = None \/
   dtype_per_layer_to_dtype_per_channel dtype_per_layer num_channels
   = Ok (l_dtype_per_channel layer)).
Proof.
  intros Hin Hcall. unfold get_or_add_layer, getitem, assert, mbind, M_bind, mret, M_ret,
    raise, lift, self in Hcall.
  rewrite decide_True in Hcall by done.
  destruct (data_layers (properties (dataset w)) !! layer_name) as [lp|] eqn:Hlp; [|done].
  destruct (String.eqb_spec (lp_category lp) category) as [Hcat|]; [|done].
  destruct (dtype_per_layer_to_dtype_per_channel dtype_per_layer num_channels) as [dt|]; [|done].
  destruct (layers (dataset w) !! layer_name) as [l|] eqn:Hl; [|done].
  simpl in Hcall.
  assert (Hdt : dtype_per_layer = None \/ l_dtype_per_channel l = dt).
  { destruct dtype_per_layer; [right | by left].
    destruct (bool_decide_reflect (l_dtype_per_channel l = dt)); [done | discriminate Hcall]. }
  assert (Hn : num_channels = None \/ num_channels = Some (l_num_channels l)).
  { destruct num_channels as [n|]; [right | by left].
    destruct dtype_per_layer; [destruct (bool_decide _); [|discriminate Hcall]|];
      simpl in Hcall; destruct (Z.eqb_spec (l_num_channels l) n); by simplify_eq. }
  assert (layer = l) as ->.
  { destruct dtype_per_layer; [destruct (bool_decide _); [|discriminate Hcall]|];
      simpl in Hcall; destruct num_channels; try (destruct (_ =? _)); by simplify_eq/=. }
  split; [done|]. split; [by rewrite <- Hcat|]. split; [done|].
  destruct Hdt as [? | <-]; auto.
Qed.

Lemma get_or_add_layer_existing_agrees_witness :
  "color" ∈ dom (layers (dataset color_world)) /\
  get_or_add_layer "color" "color" (Some (Name "uint8")) None (Some 1) color_world
  = (Ok color_layer, color_world) /\
  dtype_per_layer_to_dtype_per_channel (Some (Name "uint8")) (Some 1) = Ok uint8.
Proof.
  assert (Hin : "color" ∈ dom (layers (dataset color_world))) by by vm_compute.
  assert (Hcall : get_or_add_layer "color" "color" (Some (Name "uint8")) None (Some 1)
                    color_world = (Ok color_layer, color_world)) by by vm_compute.
  split; [done|]. split; [done|].
  destruct (get_or_add_layer_existing_agrees "color" "color" (Some (Name "uint8")) None
              (Some 1) color_layer color_world color_world Hin Hcall)
    as (_ & _ & _ & [Hd | Hd]); [discriminate Hd | exact Hd].
Defined.

(** X13.  On a dataset that has the layer, [get_or_add_layer] raises
    ConfigMismatchError (an [AssertionError]) and changes nothing when the
    category is not the recorded one, whatever the other arguments, and when
    the category is the recorded one but the per-layer dtype passed converts
    to another per-channel dtype than the layer's. *)
Theorem get_or_add_layer_config_mismatch (layer_name category : string)
    (dtype_per_layer : dtype_like) (other_dtype : option dtype_like)
    (dtype_per_channel : option dtype_like) (num_channels : option Z)
    (layer : Layer) (layer_properties : LayerProperties) (converted : np_dtype) (w : World) :
  layers (dataset w) !! layer_name = Some layer ->
  data_layers (properties (dataset w)) !! layer_name = Some layer_properties ->
  (lp_category layer_properties <> category /\ other_dtype = other_dtype) \/
  (lp_category layer_properties = category /\ other_dtype = Some dtype_per_layer /\
   dtype_per_layer_to_dtype_per_channel (Some dtype_per_layer) num_channels = Ok converted /\
   converted <> l_dtype_per_channel layer) ->
  get_or_add_layer layer_name category other_dtype dtype_per_channel num_channels w
  = (Raise ConfigMismatchError, w).
Proof.
  intros Hl Hlp Hcase. unfold get_or_add_layer, getitem, assert, mbind, M_bind, mret, M_ret,
    raise, lift, self.
  rewrite decide_True by by apply elem_of_dom_2 in Hl. rewrite Hlp.
  destruct Hcase as [[Hcat _] | (Hcat & -> & Hconv & Hne)].
  - by destruct (String.eqb_spec (lp_category layer_properties) category).
  - rewrite Hcat, String.eqb_refl, Hconv, Hl. simpl.
    by rewrite bool_decide_eq_false_2.
Qed.

Lemma get_or_add_layer_config_mismatch_witness :
  get_or_add_layer "color" "segmentation" None None None color_world
  = (Raise ConfigMismatchError, color_world) /\
  get_or_add_layer "color" "color" (Some (Name "uint16")) None (Some 1) color_world
  = (Raise ConfigMismatchError, color_world).
Proof.
  assert (Hl : layers (dataset color_world) !! "color" = Some color_layer) by by vm_compute.
  assert (Hlp : data_layers (properties (dataset color_world)) !! "color"
                = Some color_properties) by by vm_compute.
  split.
  - apply (get_or_add_layer_config_mismatch "color" "segmentation" (Name "uint8") None None
             None color_layer color_properties uint8 color_world Hl Hlp).
    left. split; [discriminate | reflexivity].
  - apply (get_or_add_layer_config_mismatch "color" "color" (Name "uint16")
             (Some (Name "uint16")) None (Some 1) color_layer color_properties uint16
             color_world Hl Hlp).
    right. split; [reflexivity|]. split; [reflexivity|]. split; [by vm_compute | discriminate].
Defined.

(** Registering the resolutions of a list adds them all to the layer. *)
Lemma setup_mags_registers (layer_name : string) (mags : list string) (w : World) (l : Layer) :
  layers (dataset w) !! layer_name = Some l ->
  exists w',
    for_each mags (setup_mag layer_name) w = (Ok (), w') /\
    layers (dataset w') !! layer_name
    = Some {| l_class := l_class l; l_name := l_name l;
              l_dtype_per_channel := l_dtype_per_channel l;
              l_num_channels := l_num_channels l;
              l_mags := list_to_set mags ∪ l_mags l |} /\
    properties (dataset w') = properties (dataset w) /\
    disk w' = disk w /\
    path (dataset w') = path (dataset w).
Proof.
  revert w l. induction mags as [|mag mags IH]; intros w l Hl.
  - exists w. simpl. rewrite union_empty_l_L. by destruct l.
  - simpl. unfold mbind, M_bind.
    unfold setup_mag at 1, set_layers at 1. rewrite Hl.
    match goal with |- context [for_each mags _ ?w1] => destruct (IH w1 _ (lookup_insert_eq _ _ _))
      as (w' & Hrun & Hlook & Hp & Hd & Hpath) end.
    exists w'. rewrite Hrun. split; [done|]. simpl in *.
    split; [|done]. rewrite Hlook. do 2 f_equal.
    by rewrite (assoc_L (∪)), (comm_L (∪) (list_to_set mags)).
Qed.

(** What a call of [add_symlink_layer] that returns has done. *)
Lemma add_symlink_layer_effect (foreign_layer_path : string) (layer : Layer) (w w' : World) :
  add_symlink_layer foreign_layer_path w = (Ok layer, w') ->
  exists table layer_properties,
    foreign (disk w) !! parent foreign_layer_path = Some table /\
    table !! basename foreign_layer_path = Some layer_properties /\
    data_layers (properties (dataset w')) !! basename foreign_layer_path
    = Some layer_properties /\
    manifest (disk w') = data_layers (properties (dataset w')) /\
    entries (disk w') !! join (path (dataset w)) (basename foreign_layer_path)
    = Some (Symlink foreign_layer_path) /\
    layers (dataset w') !! basename foreign_layer_path = Some layer /\
    l_mags layer = list_to_set (lp_wkw_magnifications layer_properties) /\
    l_num_channels layer = lp_num_channels layer_properties /\
    dtype_per_layer_to_dtype_per_channel
      (Some (Name (lp_element_class layer_properties)))
      (Some (lp_num_channels layer_properties))
    = Ok (l_dtype_per_channel layer) /\
    path (dataset w') = path (dataset w).
Proof.
  intros Hcall. unfold add_symlink_layer in Hcall.
  unfold mbind at 1, M_bind at 1, self at 1 in Hcall.
  case_decide; [done|].
  run_in Hcall.
  repeat (case_match; simplify_eq/=; try done).
  all: match goal with
       | E : for_each ?l (setup_mag ?n) ?w0 = _ |- _ =>
           destruct (setup_mags_registers n l w0 _ (lookup_insert_eq _ _ _))
             as (w2 & E' & Hlook & Hp & Hd & Hpath);
           rewrite E' in E; simplify_eq; simpl in *
       end.
  all: try match goal with
           | E : <[?k:=_]> _ !! ?k = None |- _ => by rewrite lookup_insert_eq in E
           end.
  all: do 2 eexists; split; [eassumption|]; split; [eassumption|].
  all: rewrite Hp, Hd; simpl; rewrite !lookup_insert_eq.
  all: repeat split; try done.
  all: by rewrite union_empty_r_L.
Qed.







(** X17.  The manifest on disk follows the properties: a mutating call that
    returns normally on a world whose manifest is the layer table of the
    properties leaves a world whose manifest is the layer table of the
    properties. *)
Theorem mutating_call_keeps_manifest_written (w w' : World) :
  manifest (disk w) = data_layers (properties (dataset w)) ->
  mutating_call w w' ->
  manifest (disk w') = data_layers (properties (dataset w')).
Proof.
  intros Hm [? ? ? ? ? ? Hcall | ? ? ? ? ? ? Hcall | ? Hcall | ? ? Hcall].
  - run_in Hcall. destruct (add_layer_dtypes _ _ _) as [[l c]|e]; [|done].
    simpl in Hcall. repeat (case_decide; try done).
    repeat (case_match; simplify_eq/=; try done).
  - unfold get_or_add_layer in Hcall.
    unfold mbind at 1, M_bind at 1, self at 1 in Hcall. case_decide.
    + run_in Hcall. repeat (case_match; simplify_eq/=; try done).
    + run_in Hcall. destruct (add_layer_dtypes _ _ _) as [[l c]|e]; [|done].
      simpl in Hcall. repeat (case_decide; try done).
      repeat (case_match; simplify_eq/=; try done).
  - run_in Hcall. case_decide; [done|].
    repeat (case_match; simplify_eq/=; try done).
  - by destruct (add_symlink_layer_effect _ _ _ _ Hcall) as (? & ? & _ & _ & _ & ? & _).
Qed.

Lemma mutating_call_keeps_manifest_written_witness :
  manifest (disk color_world) = data_layers (properties (dataset color_world)) /\
  mutating_call color_world fresh_world /\
  manifest (disk fresh_world) = data_layers (properties (dataset fresh_world)).
Proof.
  assert (Hm : manifest (disk color_world) = data_layers (properties (dataset color_world)))
    by reflexivity.
  assert (Hc : mutating_call color_world fresh_world).
  { apply (call_delete_layer _ _ "color"). by vm_compute. }
  split; [done|]. split; [done|].
  exact (mutating_call_keeps_manifest_written color_world fresh_world Hm Hc).
Defined.

(** ** More on the export *)



(** X19.  With worker processes, the jobs of an export along "y" or "z" tile
    the box: a voxel lies in the box exactly when it lies in the box of one
    job, and then in the box of no other. *)
Theorem worker_jobs_tile_the_box (bbox : BoundingBox) (destination_path name axis
    dataset_path : string) (p : Z * Z * Z) :
  axis = "y" \/ axis = "z" ->
  let boxes :=
    fst <$> executor_map worker_processes export_tiff_slice
              (export_args_of bbox destination_path name axis dataset_path) in
  in_box p bbox <->
  exists i : nat,
    (exists b, boxes !! i = Some b /\ in_box p b) /\
    forall j b, boxes !! j = Some b -> in_box p b -> j = i.
Proof.
  intros Hax boxes.
  assert (Hlook : forall j b, boxes !! j = Some b <->
            (j < Z.to_nat (axis_extent axis bbox))%nat /\
            b = spec_slice_bbox axis (Z.of_nat j) bbox).
  { intros j b. subst boxes. unfold executor_map. split.
    - intros Hj. assert (Hlt := lookup_lt_Some _ _ _ Hj).
      rewrite !length_fmap, export_args_length in Hlt. split; [done|].
      rewrite !list_lookup_fmap, export_args_lookup in Hj by done.
      change (Some (slice_bbox (Z.of_nat j, bbox, destination_path, name, axis,
                                dataset_path)) = Some b) in Hj.
      injection Hj as <-.
      destruct Hax as [-> | ->]; [apply slice_bbox_y | apply slice_bbox_z].
    - intros [Hlt ->]. rewrite !list_lookup_fmap, export_args_lookup by done.
      change (Some (slice_bbox (Z.of_nat j, bbox, destination_path, name, axis,
                                dataset_path))
              = Some (spec_slice_bbox axis (Z.of_nat j) bbox)).
      f_equal. destruct Hax as [-> | ->]; [apply slice_bbox_y | apply slice_bbox_z]. }
  destruct bbox as [[[t0 t1] t2] [[s0 s1] s2]], p as [[x y] z].
  split.
  - intros Hin. unfold in_box in Hin; simpl in Hin.
    exists (Z.to_nat (if (axis =? "y")%string then y - t1 else z - t2)). split.
    + eexists. split; [apply Hlook; split; [|done]|];
        destruct Hax as [-> | ->]; cbn; lia.
    + intros j b Hj Hb. apply Hlook in Hj as [Hlt ->].
      destruct Hax as [-> | ->]; cbn in *; lia.
  - intros (i & (b & Hi & Hb) & _). apply Hlook in Hi as [Hlt ->].
    destruct Hax as [-> | ->]; cbn in *; lia.
Qed.

Lemma worker_jobs_tile_the_box_witness :
  in_box (3, 4, 5) box_10_20_30 /\
  exists i : nat,
    exists b, slice_boxes worker_processes box_10_20_30 "z" !! i = Some b /\
              in_box (3, 4, 5) b.
Proof.
  assert (Hin : in_box (3, 4, 5) box_10_20_30) by (cbn; lia).
  split; [done|].
  destruct (proj1 (worker_jobs_tile_the_box box_10_20_30 "out" "img" "z" "ds/color/1"
                     (3, 4, 5) (or_intror eq_refl)) Hin) as (i & Hi & _).
  by exists i.
Defined.

(** X20.  Along "x" the jobs do not cover the box: in a box at least one
    voxel long along "x" and "y" and two along "z", the voxel one step along
    "z" from the corner lies in the box of no job. *)
Theorem x_jobs_miss_voxels (t0 t1 t2 s0 s1 s2 : Z) (destination_path name
    dataset_path : string) (executor_jobs : list BoundingBox) :
  let bbox := {| bbox_topleft := (t0, t1, t2); bbox_size := (s0, s1, s2) |} in
  1 <= s0 -> 1 <= s1 -> 2 <= s2 ->
  executor_jobs
  = fst <$> executor_map worker_processes export_tiff_slice
              (export_args_of bbox destination_path name "x" dataset_path) ->
  in_box (t0, t1, t2 + 1) bbox /\
  forall b, b ∈ executor_jobs -> ~ in_box (t0, t1, t2 + 1) b.
Proof.
  intros bbox H0 H1 H2 ->. split; [cbn; lia|].
  intros b Hb Hin. apply list_elem_of_lookup in Hb as [i Hi].
  assert (Hlt := lookup_lt_Some _ _ _ Hi).
  unfold executor_map in Hi, Hlt. rewrite !length_fmap, export_args_length in Hlt.
  rewrite !list_lookup_fmap, export_args_lookup in Hi by done.
  change (Some (slice_bbox (Z.of_nat i, bbox, destination_path, name, "x", dataset_path))
          = Some b) in Hi.
  injection Hi as <-. subst bbox. rewrite slice_bbox_x in Hin. cbn in Hin. lia.
Qed.

Lemma x_jobs_miss_voxels_witness :
  in_box (0, 0, 1) box_10_20_30 /\
  forall b, b ∈ slice_boxes worker_processes box_10_20_30 "x" -> ~ in_box (0, 0, 1) b.
Proof.
  exact (x_jobs_miss_voxels 0 0 0 10 20 30 "out" "img" "ds/color/1" _
           ltac:(lia) ltac:(lia) ltac:(lia) eq_refl).
Defined.

Lemma triangle_succ (i : nat) :
  triangle (Z.of_nat (S i)) = triangle (Z.of_nat i) + Z.of_nat (S i).
Proof.
  unfold triangle.
  replace (Z.of_nat (S i) * (Z.of_nat (S i) + 1))
    with (Z.of_nat i * (Z.of_nat i + 1) + Z.of_nat (S i) * 2) by lia.
  by rewrite Z.div_add.
Qed.

(** Slicing a slice: the offsets add up. *)
Lemma slice_of_slice (axis : string) (i j : Z) (bbox : BoundingBox) :
  axis = "y" \/ axis = "z" ->
  spec_slice_bbox axis j (spec_slice_bbox axis i bbox) = spec_slice_bbox axis (i + j) bbox.
Proof.
  destruct bbox as [[[t0 t1] t2] [[s0 s1] s2]].
  intros [-> | ->]; cbn; by rewrite Z.add_assoc.
Qed.

Lemma map_sharing_lookup (axis destination_path name dataset_path : string)
    (bbox : BoundingBox) (m k i : nat) (shared : option BoundingBox) :
  axis = "y" \/ axis = "z" ->
  (match k with
   | O => shared = None
   | S k' => shared = Some (spec_slice_bbox axis (triangle (Z.of_nat k')) bbox)
   end) ->
  (i < m)%nat ->
  fst <$> (map_sharing export_tiff_slice shared
             ((fun j => (Z.of_nat j, bbox, destination_path, name, axis, dataset_path))
                <$> seq k m) !! i)
  = Some (spec_slice_bbox axis (triangle (Z.of_nat (k + i))) bbox).
Proof.
  intros Hax. revert k i shared. induction m as [|m IH]; intros k i shared Hshared Hi; [lia|].
  cbn [seq fmap list_fmap map_sharing].
  assert (Hbox : fst (export_tiff_slice
                        (Z.of_nat k, match shared with Some b => b | None => bbox end,
                         destination_path, name, axis, dataset_path))
                 = spec_slice_bbox axis (triangle (Z.of_nat k)) bbox).
  { change (slice_bbox (Z.of_nat k, match shared with Some b => b | None => bbox end,
                        destination_path, name, axis, dataset_path)
            = spec_slice_bbox axis (triangle (Z.of_nat k)) bbox).
    assert (Hs : slice_bbox (Z.of_nat k, match shared with Some b => b | None => bbox end,
                             destination_path, name, axis, dataset_path)
                 = spec_slice_bbox axis (Z.of_nat k)
                     match shared with Some b => b | None => bbox end).
    { destruct Hax as [-> | ->]; [apply slice_bbox_y | apply slice_bbox_z]. }
    rewrite Hs. destruct k as [|k']; subst shared; [done|].
    by rewrite slice_of_slice, triangle_succ. }
  destruct i as [|i].
  - cbn [lookup list_lookup fmap option_fmap option_map]. by rewrite Nat.add_0_r, Hbox.
  - cbn [lookup list_lookup]. rewrite Hbox.
    rewrite (IH (S k) i) by (done || lia). do 3 f_equal. lia.
Qed.

Lemma export_args_as_map bbox destination_path name axis dataset_path :
  export_args_of bbox destination_path name axis dataset_path
  = (fun j => (Z.of_nat j, bbox, destination_path, name, axis, dataset_path))
      <$> seq 0 (Z.to_nat (axis_extent axis bbox)).
Proof.
  apply list_eq. intros i.
  destruct (decide (i < Z.to_nat (axis_extent axis bbox))%nat) as [Hi|Hi].
  - rewrite export_args_lookup, list_lookup_fmap, lookup_seq_lt by done. done.
  - rewrite !lookup_ge_None_2; [done | |].
    + rewrite length_fmap, length_seq. lia.
    + rewrite export_args_length. lia.
Qed.

(** X21.  An executor that runs the jobs in the calling process runs them
    on the one box they share, which each job overwrites: along "y" and "z"
    job [i] works on slice [0 + 1 + ... + i] of the box, not on slice [i]. *)
Theorem shared_box_jobs_drift (bbox : BoundingBox) (destination_path name axis
    dataset_path : string) (i : nat) :
  axis = "y" \/ axis = "z" ->
  (i < Z.to_nat (axis_extent axis bbox))%nat ->
  (fst <$> executor_map calling_process export_tiff_slice
             (export_args_of bbox destination_path name axis dataset_path)) !! i
  = Some (spec_slice_bbox axis (triangle (Z.of_nat i)) bbox).
Proof.
  intros Hax Hi. unfold executor_map. rewrite export_args_as_map, list_lookup_fmap.
  by rewrite (map_sharing_lookup axis destination_path name dataset_path bbox _ 0 i None).
Qed.

Lemma shared_box_jobs_drift_witness :
  (3 < Z.to_nat (axis_extent "z" box_10_20_30))%nat /\
  slice_boxes calling_process box_10_20_30 "z" !! 3%nat
  = Some {| bbox_topleft := (0, 0, 6); bbox_size := (10, 20, 1) |}.
Proof.
  assert (Hi : (3 < Z.to_nat (axis_extent "z" box_10_20_30))%nat) by (vm_compute; lia).
  split; [done|].
  exact (shared_box_jobs_drift box_10_20_30 "out" "img" "z" "ds/color/1" 3
           (or_intror eq_refl) Hi).
Defined.

(** ** Numbers as text *)

Lemma all_chars_impl (p q : ascii -> bool) (s : string) :
  (forall c, p c = true -> q c = true) -> all_chars p s = true -> all_chars q s = true.
Proof.
  intros Hpq. induction s as [|c s IH]; [done|]. simpl.
  intros [Hc Hs]%andb_prop. by rewrite (Hpq c Hc), IH.
Qed.

Lemma string_of_uint_number_text (d : Decimal.uint) :
  all_chars sign_or_digit (NilEmpty.string_of_uint d) = true.
Proof. induction d; simpl; auto. Qed.

(** [str(z)] is digits with at most a minus sign in front. *)
Lemma py_str_number_text (z : Z) : all_chars sign_or_digit (py_str z) = true.
Proof.
  destruct z as [|p|p]; [done| |].
  - rewrite py_str_pos. apply string_of_uint_number_text.
  - unfold py_str. simpl. unfold NilZero.string_of_uint.
    pose proof (Unsigned.to_uint_nonnil p).
    destruct (Pos.to_uint p) eqn:E; try done;
      rewrite <- E; apply string_of_uint_number_text.
Qed.

(** [int(str(z)) == z] for every integer. *)
Lemma py_int_py_str_any (z : Z) : py_int (py_str z) = Ok z.
Proof.
  destruct z as [|p|p]; [done | by apply py_int_py_str |].
  unfold py_str, py_int. simpl.
  rewrite NilZero.usu by apply Unsigned.to_uint_nonnil.
  unfold Z.of_uint. by rewrite Unsigned.of_to.
Qed.

Lemma rev_app_rev_app (s a b : string) :
  String.rev_app (String.rev_app s a) b = String.rev_app a (s +:+ b).
Proof.
  revert a. induction s as [|c s IH]; intros a; [done|].
  simpl. by rewrite IH.
Qed.

Lemma rev_app_all_chars (p : ascii -> bool) (s a : string) :
  all_chars p s = true -> all_chars p a = true -> all_chars p (String.rev_app s a) = true.
Proof.
  revert a. induction s as [|c s IH]; intros a Hs Ha; [done|].
  simpl in *. apply andb_prop in Hs as [Hc Hs]. apply IH; [done|]. simpl. by rewrite Hc.
Qed.

Lemma lstrip_no_space (s : string) :
  all_chars (fun c => negb (is_space c)) s = true -> lstrip s = s.
Proof.
  destruct s as [|c s]; [done|]. simpl. intros [Hc _]%andb_prop.
  apply negb_true_iff in Hc. by rewrite Hc.
Qed.

(** Text without blanks is its own [strip()]. *)
Lemma strip_no_space (s : string) :
  all_chars (fun c => negb (is_space c)) s = true -> strip s = s.
Proof.
  intros Hs. unfold strip. rewrite (lstrip_no_space s Hs).
  rewrite lstrip_no_space by by apply rev_app_all_chars.
  unfold String.rev. by rewrite rev_app_rev_app, append_empty_r.
Qed.

Lemma sign_or_digit_cases (c : ascii) :
  sign_or_digit c = true ->
  is_space c = false /\ Ascii.eqb c "," = false /\ Ascii.eqb c "_" = false.
Proof.
  destruct c as [[] [] [] [] [] [] [] []]; intros H; try discriminate H; by vm_compute.
Qed.

Lemma py_int_strip_py_str (z : Z) : py_int (strip (py_str z)) = Ok z.
Proof.
  rewrite strip_no_space; [apply py_int_py_str_any|].
  eapply all_chars_impl; [|apply py_str_number_text].
  intros c Hc. by rewrite (proj1 (sign_or_digit_cases c Hc)).
Qed.

(** A field without a comma is cut off at the comma that follows it. *)
Lemma split_commas_from_field (a cur rest : string) :
  all_chars sign_or_digit a = true ->
  split_commas_from cur (a +:+ String "," rest)
  = (cur +:+ a) :: split_commas_from "" rest.
Proof.
  revert cur. induction a as [|c a IH]; intros cur Ha.
  - by rewrite append_empty_l, append_empty_r.
  - simpl in Ha. apply andb_prop in Ha as [Hc Ha].
    destruct (sign_or_digit_cases c Hc) as (_ & Hcomma & _).
    rewrite append_cons.
    assert (Hstep : forall t, split_commas_from cur (String c t)
                              = split_commas_from (cur +:+ String c "") t).
    { intros t. simpl.
      destruct c as [[] [] [] [] [] [] [] []]; try discriminate Hcomma; reflexivity. }
    rewrite Hstep, IH by done. by rewrite append_assoc, append_cons, append_empty_l.
Qed.

Lemma split_commas_from_last (a cur : string) :
  all_chars sign_or_digit a = true -> split_commas_from cur a = [cur +:+ a].
Proof.
  revert cur. induction a as [|c a IH]; intros cur Ha.
  - by rewrite append_empty_r.
  - simpl in Ha. apply andb_prop in Ha as [Hc Ha].
    destruct (sign_or_digit_cases c Hc) as (_ & Hcomma & _).
    assert (Hstep : forall t, split_commas_from cur (String c t)
                              = split_commas_from (cur +:+ String c "") t).
    { intros t. simpl.
      destruct c as [[] [] [] [] [] [] [] []]; try discriminate Hcomma; reflexivity. }
    rewrite Hstep, IH by done. by rewrite append_assoc, append_cons, append_empty_l.
Qed.

(** X22.  [--bbox] reads back what was written: the six numbers of a box,
    negative ones included, separated by commas, parse to that box. *)
Theorem parse_bbox_of_bbox_text (b : BoundingBox) : parse_bbox (bbox_text b) = Ok b.
Proof.
  destruct b as [[[t0 t1] t2] [[s0 s1] s2]]. unfold parse_bbox, bbox_text, split_commas.
  cbn [bbox_topleft bbox_size].
  rewrite !(append_cons "," ""), !append_empty_l.
  rewrite !split_commas_from_field, split_commas_from_last by apply py_str_number_text.
  rewrite !append_empty_l. cbn [comprehension].
  rewrite !py_int_strip_py_str. reflexivity.
Qed.

(** Two texts cut at an underscore that neither has before it are cut at
    the same place. *)
Lemma cut_at_underscore (a b r r' : string) :
  all_chars sign_or_digit a = true -> all_chars sign_or_digit b = true ->
  a +:+ String "_" r = b +:+ String "_" r' -> a = b /\ r = r'.
Proof.
  revert b. induction a as [|c a IH]; intros [|c' b] Ha Hb Heq.
  - rewrite !append_empty_l in Heq. by injection Heq.
  - simpl in Hb. apply andb_prop in Hb as [Hc _].
    destruct (sign_or_digit_cases c' Hc) as (_ & _ & Hu).
    rewrite append_empty_l, append_cons in Heq. injection Heq as <- _. discriminate Hu.
  - simpl in Ha. apply andb_prop in Ha as [Hc _].
    destruct (sign_or_digit_cases c Hc) as (_ & _ & Hu).
    rewrite append_empty_l, append_cons in Heq. injection Heq as -> _. discriminate Hu.
  - simpl in Ha, Hb. apply andb_prop in Ha as [_ Ha]. apply andb_prop in Hb as [_ Hb].
    rewrite !append_cons in Heq. injection Heq as -> Heq.
    destruct (IH b Ha Hb Heq) as [-> ->]. done.
Qed.

(** X23.  The file name tells the [topleft] of a box and nothing else: for
    one base name, two boxes get the same file name exactly when they have
    the same [topleft], whatever their sizes.  So the slices of an export,
    which differ in [topleft], are written to different files. *)
Theorem tiff_name_identifies_topleft (name : string) (b1 b2 : BoundingBox) :
  wkw_name_and_bbox_to_tiff_name name b1 = wkw_name_and_bbox_to_tiff_name name b2
  <-> bbox_topleft b1 = bbox_topleft b2.
Proof.
  destruct b1 as [[[t0 t1] t2] size1], b2 as [[[u0 u1] u2] size2].
  unfold wkw_name_and_bbox_to_tiff_name. cbn [bbox_topleft bbox_size].
  split; [|by intros [= -> -> ->]].
  intros Heq. apply (inj (String.app name)) in Heq.
  apply (inj (String.app "_topleft_")) in Heq.
  rewrite !(append_cons "_" ""), !append_empty_l in Heq.
  apply cut_at_underscore in Heq as [H0 Heq]; [|apply py_str_number_text..].
  apply cut_at_underscore in Heq as [H1 Heq]; [|apply py_str_number_text..].
  change ("_size_" +:+ ?x) with (String "_" ("size_" +:+ x)) in Heq.
  apply cut_at_underscore in Heq as [H2 _]; [|apply py_str_number_text..].
  by rewrite (py_str_inj _ _ H0), (py_str_inj _ _ H1), (py_str_inj _ _ H2).
Qed.

(** ** More on the command line entry *)



(** ** The pattern check *)

Lemma count_append (c : ascii) (a b : string) : count c (a +:+ b) = count c a + count c b.
Proof.
  induction a as [|x a IH]; [done|]. rewrite append_cons. simpl. rewrite IH. lia.
Qed.

Lemma count_nonneg (c : ascii) (s : string) : 0 <= count c s.
Proof. induction s as [|x s IH]; simpl; [done|]. case_match; lia. Qed.

Lemma count_rev_app (c : ascii) (s a : string) :
  count c (String.rev_app s a) = count c s + count c a.
Proof.
  revert a. induction s as [|x s IH]; intros a; [done|].
  simpl. rewrite IH. simpl. lia.
Qed.

(** A pattern passes exactly when it has as many opening as closing braces,
    and at least one. *)
Lemma validate_pattern_Ok (pattern : string) :
  validate_pattern pattern = Ok () <->
  0 < count "{" pattern /\ count "{" pattern = count "}" pattern.
Proof.
  unfold validate_pattern.
  destruct (Z.ltb_spec 0 (count "{" pattern)), (Z.ltb_spec 0 (count "}" pattern)),
    (Z.eqb_spec (count "{" pattern) (count "}" pattern)); simpl; split;
    try done; try lia; intros [??]; lia.
Qed.

(** X25.  Patterns that pass the check can be put together: the
    concatenation of two valid patterns is valid. *)
Theorem validate_pattern_of_concatenation (a b : string) :
  validate_pattern a = Ok () ->
  validate_pattern b = Ok () ->
  validate_pattern (a +:+ b) = Ok ().
Proof.
  rewrite !validate_pattern_Ok, !count_append. lia.
Qed.

Lemma validate_pattern_of_concatenation_witness :
  validate_pattern "{xxxxx}/" = Ok () /\
  validate_pattern "{zzzzz}.tif" = Ok () /\
  validate_pattern "{xxxxx}/{zzzzz}.tif" = Ok ().
Proof.
  assert (Ha : validate_pattern "{xxxxx}/" = Ok ()) by reflexivity.
  assert (Hb : validate_pattern "{zzzzz}.tif" = Ok ()) by reflexivity.
  split; [done|]. split; [done|].
  exact (validate_pattern_of_concatenation "{xxxxx}/" "{zzzzz}.tif" Ha Hb).
Defined.

(** X26.  The check counts braces and does not look at their order: a
    pattern and the same text read backwards are judged alike. *)
Theorem validate_pattern_counts_only (pattern : string) :
  validate_pattern (String.rev pattern) = validate_pattern pattern.
Proof.
  unfold validate_pattern, String.rev. rewrite !count_rev_app. simpl.
  by rewrite !Z.add_0_r.
Qed.
